(** * Annual-payment mortgage schedule: the amortization engine

    A shallow embedding of [computeMortgage] (src/modules/calculations.js)
    and of the part of the calculator that calls it: [recalc] and the input
    handler of src/calculator.js, the [state] object of src/modules/state.js
    and the validation module.  Around these, what the calculator shows of a
    result: the listener [handleStateChange], the schedule table
    ([renderScheduleTable], [renderTable] of src/modules/table.js) and the
    keyboard navigation of the chart ([setupKeyboardNavigation] of the chart
    module).

    JavaScript numbers are IEEE-754 binary64 values.  The engine is written
    once, over an interface [JSNumber] that lists the operations the source
    uses.  What follows from the structure of the code alone (the loop, the
    branches, the clamp of the final year, what the callers store) is proved
    for every number type.  What depends on the arithmetic is proved at
    [float], the kernel's binary64 numbers, where every operation of the
    interface rounds as the JavaScript one does; the runs on concrete inputs
    are evaluated there.

    The interface is also read at [R], where arithmetic is exact.  The code
    does not compute there: that reading serves only statements that use
    nothing but [Math.round] and the comparison [<], on which it agrees with
    the code for every finite number. *)

From Stdlib Require Import String ZArith List Bool Lia Lra.
From Stdlib Require Import Reals.
From Stdlib Require Import Floats.
Import ListNotations.

Set Implicit Arguments.

(* A decimal literal denotes the nearest binary64 value, as it does in
   JavaScript source text. *)
Set Warnings "-inexact-float".

(** * Definitions *)

(** ** The operations the engine needs from its numbers *)

(** The inputs are numbers already ([parseFloat] results or the numbers held
    in [state]), so [Number(x)] is the identity.

    [Math.round(Number(years))] is an integral number; it only serves as the
    loop bound, as the exponent of [Math.pow] and as the divisor or factor of
    the payment, so the embedding keeps it as an integer [Z] and converts it
    back with [of_int] where the source does arithmetic with it.  This covers
    the finite terms that round to an integer other than -0 (of magnitude
    below 2^53); a term that is [NaN], infinite or in [-0.5, 0) has no such
    reading and is outside the model. *)
Class JSNumber (num : Type) : Type := {
  of_int : Z -> num;                 (* an integral number, e.g. the literal 100 *)
  add : num -> num -> num;           (* a + b *)
  sub : num -> num -> num;           (* a - b *)
  mul : num -> num -> num;           (* a * b *)
  div : num -> num -> num;           (* a / b *)
  strict_eq : num -> num -> bool;    (* a === b *)
  less : num -> num -> bool;         (* a < b *)
  isNaN : num -> bool;               (* isNaN(a) *)
  Math_max : num -> num -> num;      (* Math.max(a, b) *)
  Math_pow : num -> Z -> num;        (* Math.pow(a, n), n integral *)
  Math_round : num -> Z              (* Math.round(a), a finite *)
}.

Declare Scope js_scope.
Delimit Scope js_scope with js.
Infix "+" := add : js_scope.
Infix "-" := sub : js_scope.
Infix "*" := mul : js_scope.
Infix "/" := div : js_scope.
Infix "===" := strict_eq (at level 70, no associativity) : js_scope.
Infix "<" := less : js_scope.

(** ** The data model *)

(** The argument object [{ loanAmount, annualRate, years }]. *)
Record LoanInput (num : Type) : Type := {
  loanAmount : num;
  annualRate : num;
  years : num
}.

(** One element of [schedule]:
    [{ year, payment, interest, principal, endingBalance }]. *)
Module Row.
Record t (num : Type) : Type := make {
  year : Z;
  payment : num;
  interest : num;
  principal : num;
  endingBalance : num
}.
End Row.

(** [totals: { payment, interest, principal }]. *)
Module Totals.
Record t (num : Type) : Type := make {
  payment : num;
  interest : num;
  principal : num
}.
End Totals.

(** The returned object [{ payment, schedule, totals }]. *)
Module Result.
Record t (num : Type) : Type := make {
  payment : num;
  schedule : list (Row.t num);
  totals : Totals.t num
}.
End Result.

(** ** The engine *)

(** [for (let y = lo; ...; y++) body], run for [trips] iterations on the loop
    state [s]. *)
Fixpoint for_loop {S : Type} (body : Z -> S -> S) (y : Z) (trips : nat) (s : S) : S :=
  match trips with
  | O => s
  | Datatypes.S t => for_loop body (y + 1) t (body y s)
  end.

(** [for (let y = 1; y <= n; y++) body]: the body runs for y = 1, ..., n, that
    is [n] times, and not at all when [n < 1]. *)
Definition for_years {S : Type} (n : Z) (body : Z -> S -> S) (s : S) : S :=
  for_loop body 1 (Z.to_nat n) s.

Section Engine.

Context {num : Type} `{JSNumber num}.
Local Open Scope js_scope.

(** The variables the zero-rate loop updates: [bal] and [schedule]. *)
Record ZeroState : Type := {
  z_bal : num;
  z_schedule : list (Row.t num)
}.

(** The body of the loop of the branch [r === 0] (lines 19-22). *)
Definition zero_rate_body (payment : num) (n : Z) (y : Z) (st : ZeroState) : ZeroState :=
  let principal := if (y =? n)%Z then z_bal st else payment in
  let interest := of_int 0 in
  let bal := Math_max (of_int 0) (z_bal st - principal) in
  {| z_bal := bal;
     z_schedule := z_schedule st ++ [Row.make y payment interest principal bal] |}.

(** The variables the main loop updates: [bal], [totalInterest],
    [totalPrincipal] and [schedule]. *)
Record LoopState : Type := {
  bal : num;
  totalInterest : num;
  totalPrincipal : num;
  schedule : list (Row.t num)
}.

(** The body of the main loop (lines 40-56). *)
Definition amortize_body (payment r : num) (n : Z) (y : Z) (st : LoopState) : LoopState :=
  let interest := bal st * r in
  let principal := payment - interest in
  (* clamp final year to clear balance *)
  let principal := if (y =? n)%Z then bal st else principal in
  let bal' := Math_max (of_int 0) (bal st - principal) in
  {| bal := bal';
     totalInterest := totalInterest st + interest;
     totalPrincipal := totalPrincipal st + principal;
     schedule := schedule st ++ [Row.make y payment interest principal bal'] |}.

(** [PMT = P * [ r (1+r)^n / ((1+r)^n - 1) ]], as line 32 writes it. *)
Definition annuity_payment (P r : num) (n : Z) : num :=
  P * (r * Math_pow (of_int 1 + r) n) / (Math_pow (of_int 1 + r) n - of_int 1).

Definition computeMortgage (input : LoanInput num) : Result.t num :=
  let P := loanAmount input in
  let r := annualRate input / of_int 100 in
  let n := Math_round (years input) in
  if r === of_int 0 then
    let payment := P / of_int n in
    let st := for_years n (zero_rate_body payment n)
                {| z_bal := P; z_schedule := [] |} in
    Result.make payment (z_schedule st)
      (Totals.make (payment * of_int n) (of_int 0) P)
  else
    let payment := annuity_payment P r n in
    let st := for_years n (amortize_body payment r n)
                {| bal := P; totalInterest := of_int 0;
                   totalPrincipal := of_int 0; schedule := [] |} in
    Result.make payment (schedule st)
      (Totals.make (payment * of_int n) (totalInterest st) (totalPrincipal st)).

End Engine.

Arguments ZeroState num : clear implicits.
Arguments LoopState num : clear implicits.

(** ** The calculator around the engine *)

(** A call either returns or throws.  The callers wrap the engine in
    [try { ... } catch (e) { ... }]; the engine itself contains no [throw] and
    applies only arithmetic operators, [Math] functions and [Array.push] to
    numbers, none of which throws, so a call that ends returns.  Every call
    on a finite term ends, and the callers pass no other: a term of
    [Infinity], on which the loop of the source would not end, does not pass
    the validator and is outside the model. *)
Inductive completion (A : Type) : Type :=
| Returns (a : A)
| Throws (e : string).

Arguments Throws {A} e.

(** The observable [state] object of src/modules/state.js ([listeners] apart:
    the one listener, [handleStateChange], renders and writes nothing back). *)
Inductive ViewMode : Type := chart | table.

Inductive Field : Type := FloanAmount | FannualRate | Fyears.

Module State.
Record t (num : Type) : Type := make {
  loanAmount : num;
  annualRate : num;
  years : num;
  viewMode : ViewMode;
  schedule : option (list (Row.t num));   (* null until computed *)
  payment : option num;
  totals : option (Totals.t num);
  errors : list (Field * string)          (* the keys of the errors object *)
}.
End State.

(** [validationRules] of the validation module. *)
Record Rule : Type := {
  min : Z;
  max : Z;
  label : string;
  errorMessage : string
}.

Definition validationRules (field : Field) : Rule :=
  match field with
  | FloanAmount =>
      {| min := 1000; max := 10000000; label := "Loan Amount";
         errorMessage := "Loan amount must be between $1,000 and $10,000,000" |}
  | FannualRate =>
      {| min := 0; max := 25; label := "Annual Interest Rate (%)";
         errorMessage := "Rate must be between 0% and 25%" |}
  | Fyears =>
      {| min := 1; max := 40; label := "Loan Term (Years)";
         errorMessage := "Term must be between 1 and 40 years" |}
  end.

Section Calculator.

Context {num : Type} `{JSNumber num}.
Local Open Scope js_scope.

Definition call_computeMortgage (input : LoanInput num) : completion (Result.t num) :=
  Returns (computeMortgage input).

(** [validateField(field, value)] on a number ([value === ''] is false). *)
Definition validateField (field : Field) (value : num) : option string :=
  let rules := validationRules field in
  if isNaN value then Some (label rules ++ " is required")%string
  else if (value < of_int (min rules)) || (of_int (max rules) < value)
       then Some (errorMessage rules)
       else None.

Definition field_value (inputs : LoanInput num) (field : Field) : num :=
  match field with
  | FloanAmount => loanAmount inputs
  | FannualRate => annualRate inputs
  | Fyears => years inputs
  end.

(** [validateAllInputs(inputs)]: one entry per field in error. *)
Definition validateAllInputs (inputs : LoanInput num) : list (Field * string) :=
  flat_map
    (fun field =>
       match validateField field (field_value inputs field) with
       | Some error => [(field, error)]
       | None => []
       end)
    [FloanAmount; FannualRate; Fyears].

(** [Object.keys(errors).length] is truthy. *)
Definition has_errors (errors : list (Field * string)) : bool :=
  match errors with
  | [] => false
  | _ :: _ => true
  end.

(** [setState({ schedule: null, payment: null, totals: null })]. *)
Definition clear_result (s : State.t num) : State.t num :=
  State.make (State.loanAmount s) (State.annualRate s) (State.years s)
    (State.viewMode s) None None None (State.errors s).

(** [setState({ payment, schedule, totals })]. *)
Definition store_result (s : State.t num) (res : Result.t num) : State.t num :=
  State.make (State.loanAmount s) (State.annualRate s) (State.years s)
    (State.viewMode s)
    (Some (Result.schedule res)) (Some (Result.payment res)) (Some (Result.totals res))
    (State.errors s).

Definition set_errors (s : State.t num) (errors : list (Field * string)) : State.t num :=
  State.make (State.loanAmount s) (State.annualRate s) (State.years s)
    (State.viewMode s) (State.schedule s) (State.payment s) (State.totals s) errors.

(** [setState({ [id]: val })]. *)
Definition set_field (s : State.t num) (id : Field) (val : num) : State.t num :=
  State.make
    (match id with FloanAmount => val | _ => State.loanAmount s end)
    (match id with FannualRate => val | _ => State.annualRate s end)
    (match id with Fyears => val | _ => State.years s end)
    (State.viewMode s) (State.schedule s) (State.payment s) (State.totals s)
    (State.errors s).

(** [recalc()] of src/calculator.js. *)
Definition recalc (s : State.t num) : State.t num :=
  let inputs := {| loanAmount := State.loanAmount s;
                   annualRate := State.annualRate s;
                   years := State.years s |} in
  let errors := validateAllInputs inputs in
  if has_errors errors then clear_result (set_errors s errors)
  else
    match call_computeMortgage inputs with
    | Returns res => store_result s res
    | Throws _ => clear_result s
    end.

(** The handler [setupInputs] installs on the input [id], run on the parsed
    value [val] (the debounce apart). *)
Definition update (id : Field) (val : num) (s : State.t num) : State.t num :=
  let currentValues := {|
    loanAmount := match id with FloanAmount => val | _ => State.loanAmount s end;
    annualRate := match id with FannualRate => val | _ => State.annualRate s end;
    years := match id with Fyears => val | _ => State.years s end |} in
  let errors := validateAllInputs currentValues in
  if negb (has_errors errors) then
    match call_computeMortgage currentValues with
    | Returns res => store_result (set_errors (set_field s id val) errors) res
    | Throws _ => clear_result (set_errors (set_field s id val) errors)
    end
  else clear_result (set_errors (set_field s id val) errors).

End Calculator.

(** ** Numbers as JavaScript has them: IEEE-754 binary64 *)

Module Binary64.

(** An integer as a number (exact for magnitudes below 2^53). *)
Definition of_Z (z : Z) : float :=
  if (z <? 0)%Z then PrimFloat.opp (PrimFloat.of_uint63 (Uint63.of_Z (- z)))
  else PrimFloat.of_uint63 (Uint63.of_Z z).

(** [Math.max]: [NaN] if either argument is, and [+0] above [-0]. *)
Definition max (a b : float) : float :=
  if is_nan a || is_nan b then nan
  else if PrimFloat.ltb a b then b
  else if PrimFloat.ltb b a then a
  else if get_sign a then b else a.

Fixpoint pow_nat (x : float) (k : nat) : float :=
  match k with
  | O => PrimFloat.one
  | S k' => PrimFloat.mul x (pow_nat x k')
  end.

(** [Math.pow] with an integral exponent.  ECMAScript leaves the result
    implementation-approximated; repeated multiplication gives the exact
    power whenever every product on the way is representable: for the
    exponents 0 and 1 (1 and the base itself), for a base 1 (always 1), and
    for a power such as 1.125^3 = 729/512 or 6^21.  No statement below
    asserts a number that goes through any other case. *)
Definition pow (x : float) (n : Z) : float :=
  if (n <? 0)%Z then PrimFloat.div PrimFloat.one (pow_nat x (Z.to_nat (- n)))
  else pow_nat x (Z.to_nat n).

(** [Math.round] of a finite number: the nearest integer, a tie going towards
    +infinity, that is the floor of x + 1/2 taken exactly on
    x = (-1)^s * m * 2^e.  [NaN] and the infinities, which [Math.round]
    returns as they are, have no integer reading; they fall under the last
    case, and the statements that depend on the value of the rounded term
    take the term finite or at least 1. *)
Definition round (x : float) : Z :=
  match Prim2SF x with
  | S754_finite s m e =>
      let sm := if s then Z.neg m else Z.pos m in
      if (0 <=? e)%Z then (sm * 2 ^ e)%Z
      else ((2 * sm + 2 ^ (- e)) / (2 * 2 ^ (- e)))%Z
  | _ => 0%Z
  end.

#[global] Instance number : JSNumber float := {|
  of_int := of_Z;
  add := PrimFloat.add;
  sub := PrimFloat.sub;
  mul := PrimFloat.mul;
  div := PrimFloat.div;
  strict_eq := PrimFloat.eqb;
  less := PrimFloat.ltb;
  isNaN := PrimFloat.is_nan;
  Math_max := max;
  Math_pow := pow;
  Math_round := round
|}.

End Binary64.

(** ** Exact reals *)

(** The operations of [R] are exact, and its division is total ([x / 0] is
    0): this is not the arithmetic of the code.  [round] and [ltb] are the
    two operations that agree with the code on every finite number, and the
    statements over [R] below use no other. *)
Module Exact.

Definition eqb (a b : R) : bool := if Req_dec_T a b then true else false.

Definition ltb (a b : R) : bool := if Rlt_dec a b then true else false.

(** The floor of x + 1/2. *)
Definition round (x : R) : Z := Int_part (x + / 2).

#[global] Instance number : JSNumber R := {|
  of_int := IZR;
  add := Rplus;
  sub := Rminus;
  mul := Rmult;
  div := Rdiv;
  strict_eq := eqb;
  less := ltb;
  isNaN := fun _ => false;
  Math_max := Rmax;
  Math_pow := powerRZ;
  Math_round := round
|}.

End Exact.

(** ** What the two loops compute *)

(** Both loops build one row per year from the balance before that year; they
    differ only in how a regular year splits the payment into interest and
    principal. *)
Section Rows.

Context {num : Type} `{JSNumber num}.
Local Open Scope js_scope.

Variable payment : num.
(** [split b]: the interest and the regular principal of a year that starts
    with balance [b]. *)
Variable split : num -> num * num.
Variable n : Z.

Definition row_at (y : Z) (b : num) : Row.t num :=
  let interest := fst (split b) in
  let principal := if (y =? n)%Z then b else snd (split b) in
  Row.make y payment interest principal (Math_max (of_int 0) (b - principal)).

Fixpoint rows_from (y : Z) (b : num) (trips : nat) : list (Row.t num) :=
  match trips with
  | O => []
  | S t => row_at y b :: rows_from (y + 1) (Row.endingBalance (row_at y b)) t
  end.

Fixpoint balance_after (y : Z) (b : num) (trips : nat) : num :=
  match trips with
  | O => b
  | S t => balance_after (y + 1) (Row.endingBalance (row_at y b)) t
  end.

(** The balance a row starts from: the loan amount for the first row, the
    ending balance of the row before for the others. *)
Definition balance_before (P : num) (rows : list (Row.t num)) (i : nat) : num :=
  match i with
  | O => P
  | S j => nth j (map (@Row.endingBalance num) rows) P
  end.

End Rows.

(** ** The loops as functions of the balance *)

Section LoopModel.

Context {num : Type} `{JSNumber num}.
Local Open Scope js_scope.

(** A year of the branch [r === 0]: no interest, the payment as principal. *)
Definition zero_split (payment : num) (b : num) : num * num := (of_int 0, payment).

(** A year of the main branch: interest on the balance, the rest of the
    payment as principal. *)
Definition amortize_split (payment r : num) (b : num) : num * num :=
  (b * r, payment - b * r).

(** The running sum the loop keeps of a field of the rows. *)
Definition running_sum (f : Row.t num -> num) (rows : list (Row.t num)) (acc : num) : num :=
  fold_left (fun a row => a + f row) rows acc.

(** How the branch taken by [computeMortgage] splits a regular year. *)
Definition engine_split (input : LoanInput num) : num -> num * num :=
  let r := annualRate input / of_int 100 in
  let payment := Result.payment (computeMortgage input) in
  if r === of_int 0 then zero_split payment else amortize_split payment r.

(** What the engine's callers store of a result. *)
Definition stored_result (s : State.t num) :
    option num * option (list (Row.t num)) * option (Totals.t num) :=
  (State.payment s, State.schedule s, State.totals s).

(** The inputs the state holds. *)
Definition state_inputs (s : State.t num) : LoanInput num :=
  {| loanAmount := State.loanAmount s;
     annualRate := State.annualRate s;
     years := State.years s |}.

End LoopModel.

(** ** Inputs of the runs below *)

(** The interest-free loan of the self-test: 120000 over 10 years. *)
Definition zero_interest_test64 : LoanInput float :=
  {| loanAmount := 120000%float; annualRate := 0%float; years := 10%float |}.

(** 100000 at 10 percent over one year. *)
Definition one_year_test64 : LoanInput float :=
  {| loanAmount := 100000%float; annualRate := 10%float; years := 1%float |}.

(** The state the calculator starts from. *)
Definition initial_state64 : State.t float :=
  State.make 300000%float 6.5%float 30%float chart None None None [].

(** A term of 0 years at rate 0: an input that violates the preconditions. *)
Definition zero_term_test64 : LoanInput float :=
  {| loanAmount := 300000%float; annualRate := 0%float; years := 0%float |}.

(** [Math.abs(a - b) <= tol * Math.abs(b)]. *)
Definition within_relative (tol a b : float) : bool :=
  PrimFloat.leb (abs (a - b)) (tol * abs b).

(** A rate of 2e-14 percent over one year: the validator accepts it. *)
Definition small_rate_test64 : LoanInput float :=
  {| loanAmount := 300000%float; annualRate := 2e-14%float; years := 1%float |}.

(** A rate of 1e-15 percent over two years: the validator accepts it. *)
Definition vanishing_rate_test64 : LoanInput float :=
  {| loanAmount := 300000%float; annualRate := 1e-15%float; years := 2%float |}.

(** 1000 at rate 0 over three years: the division leaves a residue. *)
Definition third_residue_test64 : LoanInput float :=
  {| loanAmount := 1000%float; annualRate := 0%float; years := 3%float |}.



(** 100000 at 12.5 percent over three years. *)
Definition three_year_test64 : LoanInput float :=
  {| loanAmount := 100000%float; annualRate := 12.5%float; years := 3%float |}.

(** ** The calculator as a state machine *)

(** What can happen to the [state] object: the initial [recalc()], an input
    event on one of the three fields with its parsed value, and the two view
    buttons, whose handlers call [setState({ viewMode: ... })]. *)
Inductive Event (num : Type) : Type :=
| Recalc
| InputChanged (id : Field) (val : num)
| ShowChart
| ShowTable.

Arguments Recalc {num}.
Arguments ShowChart {num}.
Arguments ShowTable {num}.

(** What the listener [handleStateChange] asks the rendering modules to do. *)
Inductive Render (num : Type) : Type :=
| RenderResults (payment : num) (totals : Totals.t num) (years : num)
| RenderChart (rows : list (Row.t num)) (showLabels : bool)
| RenderScheduleTable (rows : list (Row.t num)) (totals : Totals.t num).

(** [shouldShowLabels()]: [window.innerWidth > 860]. *)
Definition shouldShowLabels (innerWidth : Z) : bool := (860 <? innerWidth)%Z.

Section Machine.

Context {num : Type} `{JSNumber num}.
Local Open Scope js_scope.

(** [setState({ viewMode })]. *)
Definition set_view (s : State.t num) (view : ViewMode) : State.t num :=
  State.make (State.loanAmount s) (State.annualRate s) (State.years s)
    view (State.schedule s) (State.payment s) (State.totals s) (State.errors s).

Definition step (e : Event num) (s : State.t num) : State.t num :=
  match e with
  | Recalc => recalc s
  | InputChanged id val => update id val s
  | ShowChart => set_view s chart
  | ShowTable => set_view s table
  end.

Definition run (events : list (Event num)) (s : State.t num) : State.t num :=
  fold_left (fun s e => step e s) events s.

(** The result the state holds is none at all, or the engine's result for
    the inputs the state holds, which the validator accepts. *)
Definition fresh (s : State.t num) : Prop :=
  stored_result s = (None, None, None)
  \/ (validateAllInputs (state_inputs s) = []
      /\ stored_result s
         = (Some (Result.payment (computeMortgage (state_inputs s))),
            Some (Result.schedule (computeMortgage (state_inputs s))),
            Some (Result.totals (computeMortgage (state_inputs s))))).

(** A number is falsy when it is 0, -0 or [NaN]. *)
Definition truthy (x : num) : bool := negb (isNaN x || (x === of_int 0)).

(** [handleStateChange(s)] (src/calculator.js): nothing while any of the
    schedule, the payment and the totals is missing ([null], or a falsy
    payment); otherwise the results card and the view that is visible. *)
Definition handleStateChange (innerWidth : Z) (s : State.t num) : list (Render num) :=
  match State.schedule s, State.payment s, State.totals s with
  | Some schedule, Some payment, Some totals =>
      if truthy payment then
        RenderResults payment totals (State.years s)
        :: match State.viewMode s with
           | chart => [RenderChart schedule (shouldShowLabels innerWidth)]
           | table => [RenderScheduleTable schedule totals]
           end
      else []
  | _, _, _ => []
  end.

End Machine.

(** ** The schedule table *)

(** A value of a data row: the year is an integer, the rest are numbers. *)
Inductive Value (num : Type) : Type :=
| IntValue (z : Z)
| NumValue (x : num).

Arguments IntValue {num} z.

(** What a cell of the table holds. *)
Inductive Cell (num : Type) : Type :=
| Dash                             (* the span with aria-label "No value" *)
| Text (value : Value num)         (* textContent = value *)
| Currency (value : Value num)     (* textContent = formatCurrency(value) *)
| Heading (text : string)
| EmptyCell.

Arguments Dash {num}.
Arguments Heading {num} text.
Arguments EmptyCell {num}.

(** A column of the configuration; [format] tells whether the column has a
    formatter (the calculator passes no other than [formatCurrency]). *)
Module Column.
Record t : Type := make {
  key : string;
  header : string;
  align_right : bool;
  format : bool
}.
End Column.

(** The table as rendered: caption, header row, body rows, footer row. *)
Module Table.
Record t (num : Type) : Type := make {
  caption : string;
  head : list string;
  body : list (list (Cell num));
  foot : option (list (Cell num))
}.
End Table.

Section ScheduleTable.

Context {num : Type} `{JSNumber num}.
Local Open Scope js_scope.
Local Open Scope string_scope.

(** An object with keys: [None] is [undefined]. *)
Definition Obj : Type := string -> option (Value num).

(** [value === 0]. *)
Definition is_zero (value : Value num) : bool :=
  match value with
  | IntValue z => (z =? 0)%Z
  | NumValue x => x === of_int 0
  end.

Definition formatted (col : Column.t) (value : Value num) : Cell num :=
  if Column.format col then Currency value else Text value.

(** A body cell: the dash for 0, [null] and [undefined]. *)
Definition body_cell (col : Column.t) (row : Obj) : Cell num :=
  match row (Column.key col) with
  | None => Dash
  | Some value => if is_zero value then Dash else formatted col value
  end.

(** A footer cell: "Total" in the first column, the total of the column
    where the totals have one. *)
Definition footer_cell (totals : Obj) (idx : nat) (col : Column.t) : Cell num :=
  match idx with
  | O => Heading "Total"
  | S _ =>
      match totals (Column.key col) with
      | Some value => formatted col value
      | None => EmptyCell
      end
  end.

Fixpoint footer_cells (totals : Obj) (idx : nat) (columns : list Column.t)
    : list (Cell num) :=
  match columns with
  | [] => []
  | col :: rest => footer_cell totals idx col :: footer_cells totals (S idx) rest
  end.

(** [renderTable(data, config)] (src/modules/table.js), for a table element
    that exists. *)
Definition renderTable (data : list Obj) (caption : string)
    (columns : list Column.t) (totals : option Obj) : Table.t num :=
  Table.make caption
    (map Column.header columns)
    (map (fun row => map (fun col => body_cell col row) columns) data)
    (match totals with
     | Some totals => Some (footer_cells totals 0 columns)
     | None => None
     end).

(** The object [renderScheduleTable] makes of a schedule row. *)
Definition row_object (row : Row.t num) : Obj :=
  fun key =>
    if key =? "year" then Some (IntValue (Row.year row))
    else if key =? "payment" then Some (NumValue (Row.payment row))
    else if key =? "interest" then Some (NumValue (Row.interest row))
    else if key =? "principal" then Some (NumValue (Row.principal row))
    else if key =? "endingBalance" then Some (NumValue (Row.endingBalance row))
    else None.

(** The [totals] of the configuration, with its literal [endingBalance: 0]. *)
Definition totals_object (totals : Totals.t num) : Obj :=
  fun key =>
    if key =? "payment" then Some (NumValue (Totals.payment totals))
    else if key =? "interest" then Some (NumValue (Totals.interest totals))
    else if key =? "principal" then Some (NumValue (Totals.principal totals))
    else if key =? "endingBalance" then Some (NumValue (of_int 0))
    else None.

Definition schedule_columns : list Column.t :=
  [Column.make "year" "Year" false false;
   Column.make "payment" "Payment" true true;
   Column.make "interest" "Interest" true true;
   Column.make "principal" "Amortization" true true;
   Column.make "endingBalance" "Ending Balance" true true].

(** [renderScheduleTable(schedule, totals)] (src/calculator.js). *)
Definition renderScheduleTable (schedule : list (Row.t num)) (totals : Totals.t num)
    : Table.t num :=
  renderTable (map row_object schedule)
    "Mortgage amortization schedule: annual payment split into interest and principal with ending balance."
    schedule_columns
    (Some (totals_object totals)).

End ScheduleTable.

(** ** Keyboard navigation of the chart *)

Inductive Key : Type :=
| ArrowRight | ArrowDown | ArrowLeft | ArrowUp | Home | End_ | OtherKey.

(** What [announceDataPoint(rows[i], totalPayment[i])] does: it reads
    [row.year], a [TypeError] when [rows[i]] is [undefined]; otherwise it
    writes the row and the payment to the live region. *)
Inductive Announcement (num : Type) : Type :=
| Announce (row : Row.t num) (payment : num)
| AnnounceTypeError.

Arguments AnnounceTypeError {num}.

(** The module variables [currentFocusIndex] and [isKeyboardMode] of the
    chart module, with the listeners on the canvas.  [setupKeyboardNavigation]
    removes the previous keydown listener before it adds the new one, so there
    is at most one, closed over the rows of the last [renderChart].  It adds a
    focus listener without removing any: the canvas keeps one per
    [renderChart], each closed over the rows of its own call. *)
Module Chart.
Record t (num : Type) : Type := make {
  keydownListener : option (list (Row.t num));
  focusListeners : list (list (Row.t num));     (* oldest first *)
  currentFocusIndex : Z;
  isKeyboardMode : bool
}.
End Chart.

Inductive ChartEvent (num : Type) : Type :=
| Rendered (rows : list (Row.t num))    (* renderChart(rows, showLabels) *)
| KeyDown (key : Key)
| Focused
| MouseMoved.

Arguments KeyDown {num} key.
Arguments Focused {num}.
Arguments MouseMoved {num}.

Section ChartKeys.

Context {num : Type}.

(** The module as loaded: no chart yet, no listener. *)
Definition chart_loaded : Chart.t num := Chart.make None [] 0 false.

(** [rows[i]], [undefined] outside the array. *)
Definition row_at_index (rows : list (Row.t num)) (i : Z) : option (Row.t num) :=
  if (i <? 0)%Z then None else nth_error rows (Z.to_nat i).

(** [totalPayment = rows.map(r => r.payment)], so [totalPayment[i]] is the
    payment of [rows[i]]. *)
Definition announceDataPoint (rows : list (Row.t num)) (i : Z) : Announcement num :=
  match row_at_index rows i with
  | Some row => Announce row (Row.payment row)
  | None => AnnounceTypeError
  end.

(** The index a key asks for; [None] for the [default: return]. *)
Definition key_target (key : Key) (current maxIndex : Z) : option Z :=
  match key with
  | ArrowRight | ArrowDown => Some (Z.min (current + 1) maxIndex)
  | ArrowLeft | ArrowUp => Some (Z.max (current - 1) 0)
  | Home => Some 0%Z
  | End_ => Some maxIndex
  | OtherKey => None
  end.

(** [keydownListener], closed over [rows]: keyboard mode is switched on
    before the key is looked at; the index moves, and the new data point is
    announced, only when the key asks for another index than the current
    one. *)
Definition keydown (rows : list (Row.t num)) (key : Key) (c : Chart.t num)
    : Chart.t num * list (Announcement num) :=
  let maxIndex := (Z.of_nat (length rows) - 1)%Z in
  let current := Chart.currentFocusIndex c in
  match key_target key current maxIndex with
  | None =>
      (Chart.make (Chart.keydownListener c) (Chart.focusListeners c) current true, [])
  | Some newIndex =>
      if (newIndex =? current)%Z
      then (Chart.make (Chart.keydownListener c) (Chart.focusListeners c) current true, [])
      else (Chart.make (Chart.keydownListener c) (Chart.focusListeners c) newIndex true,
            [announceDataPoint rows newIndex])
  end.

(** One event on the canvas, with what the listeners announce, in the order
    in which they were added.  A listener that throws does not keep the
    later ones from running. *)
Definition chart_step (e : ChartEvent num) (c : Chart.t num)
    : Chart.t num * list (Announcement num) :=
  match e with
  | Rendered rows =>
      (Chart.make (Some rows) (Chart.focusListeners c ++ [rows]) 0
         (Chart.isKeyboardMode c), [])
  | KeyDown key =>
      match Chart.keydownListener c with
      | Some rows => keydown rows key c
      | None => (c, [])
      end
  | Focused =>
      (Chart.make (Chart.keydownListener c) (Chart.focusListeners c)
         (Chart.currentFocusIndex c)
         (match Chart.focusListeners c with [] => Chart.isKeyboardMode c | _ :: _ => true end),
       map (fun rows => announceDataPoint rows (Chart.currentFocusIndex c))
         (Chart.focusListeners c))
  | MouseMoved =>
      (Chart.make (Chart.keydownListener c) (Chart.focusListeners c)
         (Chart.currentFocusIndex c)
         (match Chart.focusListeners c with [] => Chart.isKeyboardMode c | _ :: _ => false end),
       [])
  end.

(** The chart after a sequence of events, with what each event announced. *)
Fixpoint chart_run (events : list (ChartEvent num)) (c : Chart.t num)
    : Chart.t num * list (list (Announcement num)) :=
  match events with
  | [] => (c, [])
  | e :: rest =>
      let (c', a) := chart_step e c in
      let (c'', log) := chart_run rest c' in
      (c'', a :: log)
  end.

(** Once a chart is rendered, the focus index addresses one of its rows and
    the newest focus listener is closed over the same rows; before, the module
    is as loaded. *)
Definition settled (c : Chart.t num) : Prop :=
  match Chart.keydownListener c with
  | Some rows =>
      (0 <= Chart.currentFocusIndex c < Z.of_nat (length rows))%Z
      /\ exists stale, Chart.focusListeners c = stale ++ [rows]
  | None => c = chart_loaded
  end.

(** Every chart that is rendered has a row. *)
Definition renders_rows (e : ChartEvent num) : Prop :=
  match e with
  | Rendered rows => rows <> []
  | _ => True
  end.

End ChartKeys.

(** ** The listeners of the state object *)

(** [subscribe(cb)] and the function it returns, on the [listeners] array.
    Callbacks are compared by identity ([indexOf]); they are taken from a type
    with a decidable equality. *)
Section Listeners.

Context {L : Type}.
Variable L_eq_dec : forall a b : L, {a = b} + {a <> b}.

(** [state.listeners.push(cb)]. *)
Definition subscribe (cb : L) (listeners : list L) : list L := listeners ++ [cb].

(** [const i = listeners.indexOf(cb); if (i > -1) listeners.splice(i, 1)]. *)
Fixpoint unsubscribe (cb : L) (listeners : list L) : list L :=
  match listeners with
  | [] => []
  | x :: rest => if L_eq_dec cb x then rest else x :: unsubscribe cb rest
  end.

End Listeners.

(** * Properties *)

(** ** Rows built from the balance before them *)

Section RowFacts.

Context {num : Type} `{JSNumber num}.
Local Open Scope js_scope.

Variable payment : num.
Variable split : num -> num * num.
Variable n : Z.

Lemma rows_from_length (trips : nat) :
  forall y b, length (rows_from payment split n y b trips) = trips.
Proof. induction trips as [|t IH]; intros y b; simpl; [reflexivity | now rewrite IH]. Qed.

Lemma balance_before_cons (b : num) (row : Row.t num) (rows : list (Row.t num)) (i : nat) :
  (i < S (length rows))%nat ->
  balance_before b (row :: rows) (S i) = balance_before (Row.endingBalance row) rows i.
Proof.
  destruct i as [|j]; simpl; [reflexivity|].
  intros Hj. apply nth_indep. rewrite length_map. lia.
Qed.

(** Row [i] is the row of year [y + i] built from the balance before it. *)
Lemma rows_from_nth (trips : nat) :
  forall y b i row,
    nth_error (rows_from payment split n y b trips) i = Some row ->
    row = row_at payment split n (y + Z.of_nat i) (balance_before b (rows_from payment split n y b trips) i).
Proof.
  induction trips as [|t IH]; intros y b i row Hnth.
  - destruct i; discriminate.
  - destruct i as [|i].
    + simpl in Hnth. injection Hnth as <-. simpl. now rewrite Z.add_0_r.
    + change (rows_from payment split n y b (S t))
        with (row_at payment split n y b :: rows_from payment split n (y + 1) (Row.endingBalance (row_at payment split n y b)) t) in *.
      change (nth_error (rows_from payment split n (y + 1) (Row.endingBalance (row_at payment split n y b)) t) i = Some row)
        in Hnth.
      assert (Hi : (i < length (rows_from payment split n (y + 1) (Row.endingBalance (row_at payment split n y b)) t))%nat)
        by (apply nth_error_Some; rewrite Hnth; discriminate).
      rewrite balance_before_cons by lia.
      rewrite (IH _ _ _ _ Hnth) at 1.
      f_equal. lia.
Qed.

End RowFacts.

(** ** The loops of the engine, run from any state *)

Section Loops.

Context {num : Type} `{JSNumber num}.
Local Open Scope js_scope.

Lemma zero_loop_spec (payment : num) (n : Z) (trips : nat) :
  forall y st,
    for_loop (zero_rate_body payment n) y trips st
    = {| z_bal := balance_after payment (zero_split payment) n y (z_bal st) trips;
         z_schedule := z_schedule st
                       ++ rows_from payment (zero_split payment) n y (z_bal st) trips |}.
Proof.
  induction trips as [|t IH]; intros y st; simpl.
  - rewrite app_nil_r. now destruct st.
  - rewrite IH. simpl. now rewrite <- app_assoc.
Qed.

Lemma amortize_loop_spec (payment r : num) (n : Z) (trips : nat) :
  forall y st,
    let rows := rows_from payment (amortize_split payment r) n y (bal st) trips in
    for_loop (amortize_body payment r n) y trips st
    = {| bal := balance_after payment (amortize_split payment r) n y (bal st) trips;
         totalInterest := running_sum (@Row.interest num) rows (totalInterest st);
         totalPrincipal := running_sum (@Row.principal num) rows (totalPrincipal st);
         schedule := schedule st ++ rows |}.
Proof.
  induction trips as [|t IH]; intros y st; simpl.
  - rewrite app_nil_r. now destruct st.
  - rewrite IH. simpl. now rewrite <- app_assoc.
Qed.

(** The result of [computeMortgage], branch by branch. *)
Lemma computeMortgage_zero (input : LoanInput num) :
  let P := loanAmount input in
  let n := Math_round (years input) in
  let payment := P / of_int n in
  (annualRate input / of_int 100 === of_int 0) = true ->
  computeMortgage input
  = Result.make payment
      (rows_from payment (zero_split payment) n 1 P (Z.to_nat n))
      (Totals.make (payment * of_int n) (of_int 0) P).
Proof.
  intros P n payment Hr. unfold computeMortgage. rewrite Hr.
  unfold for_years. now rewrite zero_loop_spec.
Qed.

Lemma computeMortgage_positive (input : LoanInput num) :
  let P := loanAmount input in
  let r := annualRate input / of_int 100 in
  let n := Math_round (years input) in
  let payment := annuity_payment P r n in
  let rows := rows_from payment (amortize_split payment r) n 1 P (Z.to_nat n) in
  (r === of_int 0) = false ->
  computeMortgage input
  = Result.make payment rows
      (Totals.make (payment * of_int n)
         (running_sum (@Row.interest num) rows (of_int 0))
         (running_sum (@Row.principal num) rows (of_int 0))).
Proof.
  intros P r n payment rows Hr. unfold computeMortgage. fold r. rewrite Hr.
  unfold for_years. now rewrite amortize_loop_spec.
Qed.

End Loops.

(** ** Rounding a real term *)

Section ExactFacts.

Local Open Scope R_scope.



End ExactFacts.

(** ** Facts that hold for every number type *)

Section EveryNumber.

Context {num : Type} `{JSNumber num}.
Local Open Scope js_scope.

Lemma computeMortgage_schedule (input : LoanInput num) :
  let n := Math_round (years input) in
  Result.schedule (computeMortgage input)
  = rows_from (Result.payment (computeMortgage input)) (engine_split input) n 1
      (loanAmount input) (Z.to_nat n).
Proof.
  intros n. unfold engine_split.
  destruct (annualRate input / of_int 100 === of_int 0) eqn:Hr.
  - now rewrite computeMortgage_zero.
  - now rewrite computeMortgage_positive.
Qed.

Lemma schedule_length (input : LoanInput num) :
  length (Result.schedule (computeMortgage input))
  = Z.to_nat (Math_round (years input)).
Proof. rewrite computeMortgage_schedule. apply rows_from_length. Qed.

(** Every row is built from the balance the row before left. *)
Lemma schedule_row (input : LoanInput num) (i : nat) (row : Row.t num) :
  let res := computeMortgage input in
  nth_error (Result.schedule res) i = Some row ->
  row = row_at (Result.payment res) (engine_split input) (Math_round (years input))
          (Z.of_nat i + 1)
          (balance_before (loanAmount input) (Result.schedule res) i).
Proof.
  intros res Hnth. subst res.
  rewrite computeMortgage_schedule in Hnth.
  apply rows_from_nth in Hnth.
  rewrite <- computeMortgage_schedule in Hnth.
  now rewrite Z.add_comm.
Qed.

Lemma schedule_row_payment (input : LoanInput num) (row : Row.t num) :
  In row (Result.schedule (computeMortgage input)) ->
  Row.payment row = Result.payment (computeMortgage input).
Proof.
  intros Hin. apply In_nth_error in Hin as [i Hnth].
  apply schedule_row in Hnth. now rewrite Hnth.
Qed.

(** A term that rounds below 1 leaves the loop body unexecuted. *)
Lemma schedule_empty (input : LoanInput num) :
  (Math_round (years input) < 1)%Z ->
  Result.schedule (computeMortgage input) = [].
Proof.
  intros Hn. apply length_zero_iff_nil. rewrite schedule_length. lia.
Qed.

End EveryNumber.

(** ** The engine and the shared state *)

Section SharedState.

Context {num : Type} `{JSNumber num}.

Lemma recalc_inputs (s : State.t num) : state_inputs (recalc s) = state_inputs s.
Proof.
  unfold recalc. destruct (has_errors _); [reflexivity|].
  destruct (call_computeMortgage _); reflexivity.
Qed.

Lemma recalc_stored (s : State.t num) :
  stored_result (recalc s)
  = if has_errors (validateAllInputs (state_inputs s)) then (None, None, None)
    else let res := computeMortgage (state_inputs s) in
         (Some (Result.payment res), Some (Result.schedule res), Some (Result.totals res)).
Proof. unfold recalc. fold (state_inputs s). now destruct (has_errors _). Qed.

Lemma update_stored (id : Field) (val : num) (s : State.t num) :
  stored_result (update id val s)
  = if has_errors (validateAllInputs (state_inputs (set_field s id val)))
    then (None, None, None)
    else let res := computeMortgage (state_inputs (set_field s id val)) in
         (Some (Result.payment res), Some (Result.schedule res), Some (Result.totals res)).
Proof.
  unfold update.
  replace (state_inputs (set_field s id val))
    with {| loanAmount := match id with FloanAmount => val | _ => State.loanAmount s end;
            annualRate := match id with FannualRate => val | _ => State.annualRate s end;
            years := match id with Fyears => val | _ => State.years s end |}
    by now destruct id.
  now destruct (has_errors _).
Qed.

(** The engine runs only on inputs the validator let through. *)
Lemma recalc_guard (s : State.t num) :
  State.schedule (recalc s) <> None -> validateAllInputs (state_inputs s) = [].
Proof.
  intros Hsome.
  assert (Hst : snd (fst (stored_result (recalc s))) <> None) by exact Hsome.
  rewrite recalc_stored in Hst.
  destruct (validateAllInputs (state_inputs s)); [reflexivity | now simpl in Hst].
Qed.

Lemma update_guard (id : Field) (val : num) (s : State.t num) :
  State.schedule (update id val s) <> None ->
  validateAllInputs (state_inputs (set_field s id val)) = [].
Proof.
  intros Hsome.
  assert (Hst : snd (fst (stored_result (update id val s))) <> None) by exact Hsome.
  rewrite update_stored in Hst.
  destruct (validateAllInputs _); [reflexivity | now simpl in Hst].
Qed.

End SharedState.

(** ** What the validator lets through *)

Section Validator.

Local Open Scope R_scope.

Lemma less_true (a b : R) : Exact.ltb a b = true <-> a < b.
Proof. unfold Exact.ltb. destruct (Rlt_dec a b); split; (congruence || tauto). Qed.

Lemma validateField_accepts (field : Field) (value : R) :
  validateField field value = None
  <-> IZR (min (validationRules field)) <= value <= IZR (max (validationRules field)).
Proof.
  unfold validateField. cbn [isNaN less of_int Exact.number].
  destruct (Exact.ltb value _) eqn:Hlo; [apply less_true in Hlo|];
    [|destruct (Exact.ltb _ value) eqn:Hhi; [apply less_true in Hhi|]]; cbn [orb].
  - split; [discriminate | lra].
  - split; [discriminate | lra].
  - assert (~ value < IZR (min (validationRules field)))
      by (rewrite <- less_true; congruence).
    assert (~ IZR (max (validationRules field)) < value)
      by (rewrite <- less_true; congruence).
    split; [lra | reflexivity].
Qed.

End Validator.

(** ** The rows the loop pushes, for every number type *)

Section RowsExist.

Context {num : Type} `{JSNumber num}.
Local Open Scope js_scope.

(** Each of the [n] years has its row. *)
Lemma schedule_row_exists (input : LoanInput num) (i : nat) :
  let res := computeMortgage input in
  (i < Z.to_nat (Math_round (years input)))%nat ->
  exists row,
    nth_error (Result.schedule res) i = Some row /\
    row = row_at (Result.payment res) (engine_split input) (Math_round (years input))
            (Z.of_nat i + 1)
            (balance_before (loanAmount input) (Result.schedule res) i).
Proof.
  intros res Hi.
  destruct (nth_error (Result.schedule res) i) as [row|] eqn:Hnth.
  - exists row. split; [reflexivity|]. now apply schedule_row.
  - apply nth_error_None in Hnth. subst res. rewrite schedule_length in Hnth. lia.
Qed.

(** The rows of the branch [r === 0]. *)
Lemma zero_branch_row (input : LoanInput num) (i : nat) :
  let r := annualRate input / of_int 100 in
  let n := Math_round (years input) in
  let res := computeMortgage input in
  let before := balance_before (loanAmount input) (Result.schedule res) i in
  (r === of_int 0) = true ->
  (i < Z.to_nat n)%nat ->
  exists row,
    nth_error (Result.schedule res) i = Some row /\
    row = Row.make (Z.of_nat i + 1) (Result.payment res) (of_int 0)
            (if (Z.of_nat i + 1 =? n)%Z then before else Result.payment res)
            (Math_max (of_int 0)
               (before - (if (Z.of_nat i + 1 =? n)%Z then before else Result.payment res))).
Proof.
  intros r n res before Hr Hi.
  destruct (@schedule_row_exists input i Hi) as (row & Hnth & Hrow).
  exists row. split; [exact Hnth|]. rewrite Hrow.
  unfold engine_split. fold r. rewrite Hr. reflexivity.
Qed.

(** The rows of the other branch. *)
Lemma amortize_branch_row (input : LoanInput num) (i : nat) :
  let r := annualRate input / of_int 100 in
  let n := Math_round (years input) in
  let res := computeMortgage input in
  let before := balance_before (loanAmount input) (Result.schedule res) i in
  (r === of_int 0) = false ->
  (i < Z.to_nat n)%nat ->
  exists row,
    nth_error (Result.schedule res) i = Some row /\
    row = Row.make (Z.of_nat i + 1) (Result.payment res) (before * r)
            (if (Z.of_nat i + 1 =? n)%Z then before else Result.payment res - before * r)
            (Math_max (of_int 0)
               (before - (if (Z.of_nat i + 1 =? n)%Z then before
                          else Result.payment res - before * r))).
Proof.
  intros r n res before Hr Hi.
  destruct (@schedule_row_exists input i Hi) as (row & Hnth & Hrow).
  exists row. split; [exact Hnth|]. rewrite Hrow.
  unfold engine_split. fold r. rewrite Hr. reflexivity.
Qed.

End RowsExist.

(** ** Rounding in binary64 *)

(** Facts about the IEEE 754 operations as the Standard Library specifies
    them ([SpecFloat]), which [FloatAxioms] relates to the kernel's numbers. *)

Section Rounding64.

Lemma digits2_pos_size (m : positive) : digits2_pos m = Pos.size m.
Proof. induction m as [m IH | m IH |]; cbn; now rewrite ?IH. Qed.

(** A number compares equal to itself unless it is [NaN]. *)
Lemma SFcompare_refl (f : spec_float) : f <> S754_nan -> SFcompare f f = Some Eq.
Proof.
  destruct f as [s | s | | s m e]; intros Hf; cbn.
  - reflexivity.
  - now destruct s.
  - now elim Hf.
  - rewrite Z.compare_refl, Pos.compare_cont_refl. now destruct s.
Qed.








(** Shifting a record right by [n] places divides its mantissa by 2^n. *)






(** Rounding M * 2^e, with M below the aligned mantissa of a positive
    finite number, does not pass that number. *)










End Rounding64.

(** ** Binary64 arithmetic *)

Section Binary64Facts.

Local Open Scope float_scope.

(** [Math.max(0, x)] is not a number, or +0, or positive. *)
Lemma max_zero_cases (x : float) :
  is_nan (Binary64.max 0 x) = true
  \/ Binary64.max 0 x = 0
  \/ (0 <? Binary64.max 0 x) = true.
Proof.
  unfold Binary64.max.
  change (is_nan 0) with false. change (get_sign 0) with false. cbn [orb].
  destruct (is_nan x); [left; reflexivity|].
  destruct (0 <? x) eqn:Hpos; [right; right; exact Hpos|].
  destruct (x <? 0); right; left; reflexivity.
Qed.

(** A number that is neither [NaN] nor infinite is a zero or has a mantissa
    and an exponent. *)
Lemma finite_cases (x : float) :
  is_finite x = true ->
  (exists s, Prim2SF x = S754_zero s) \/ (exists s m e, Prim2SF x = S754_finite s m e).
Proof.
  unfold is_finite, is_nan, is_infinity.
  rewrite !eqb_spec, abs_spec.
  destruct (Prim2SF x) as [s | s | | s m e] eqn:Hx.
  - intros _. left. now exists s.
  - unfold SFeqb; simpl. destruct s; simpl; rewrite ?Bool.orb_true_r; discriminate.
  - unfold SFeqb; simpl. discriminate.
  - intros _. right. now exists s, m, e.
Qed.

(** [x - x] is +0 for every finite [x]. *)
Lemma sub_self_finite (x : float) : is_finite x = true -> x - x = 0.
Proof.
  intros Hfin. apply Prim2SF_inj. rewrite sub_spec.
  destruct (finite_cases x Hfin) as [[s Hx] | (s & m & e & Hx)]; rewrite Hx.
  - destruct s; reflexivity.
  - unfold SF64sub, SFsub. rewrite Z.sub_diag. reflexivity.
Qed.

Lemma is_nan_spec (x : float) : is_nan x = true <-> Prim2SF x = S754_nan.
Proof.
  unfold is_nan. rewrite eqb_spec. unfold SFeqb. split.
  - intros Hnan. destruct (Prim2SF x) as [s | s | | s m e] eqn:Hx; [| |reflexivity|];
      rewrite SFcompare_refl in Hnan by discriminate; discriminate.
  - intros ->. reflexivity.
Qed.

(** The mantissa of a finite number above the subnormal range has 53 bits. *)
Lemma normal_mantissa (x : float) (s : bool) (m : positive) (e : Z) :
  Prim2SF x = S754_finite s m e -> (-1074 < e)%Z ->
  (4503599627370496 <= Z.pos m < 9007199254740992)%Z.
Proof.
  intros Hx He. pose proof (Prim2SF_valid x) as Hv. rewrite Hx in Hv.
  unfold valid_binary, bounded, canonical_mantissa, fexp, emin in Hv.
  apply andb_prop in Hv as [Hc _]. apply Z.eqb_eq in Hc.
  rewrite digits2_pos_size in Hc.
  unfold prec, emax in Hc.
  assert (Hsize : Pos.size m = 53%positive) by lia.
  pose proof (Pos.size_gt m) as Hgt. pose proof (Pos.size_le m) as Hle.
  rewrite Hsize in Hgt, Hle.
  assert (E : (2 ^ 53)%positive = 9007199254740992%positive) by (vm_compute; reflexivity).
  rewrite E in Hgt, Hle. clear - Hgt Hle.
  apply Pos2Z.pos_lt_pos in Hgt. apply Pos2Z.pos_le_pos in Hle.
  rewrite Pos2Z.inj_xO in Hle. lia.
Qed.

(** A term the validator accepts (not [NaN], not below 1, not above 40) is
    finite and rounds to an integer from 1 to 40. *)
Lemma validated_term (y : float) :
  is_nan y = false -> (y <? 1) = false -> (40 <? y) = false ->
  is_finite y = true /\ (1 <= Binary64.round y <= 40)%Z.
Proof.
  intros Hnan Hlo Hhi.
  assert (Hnotnan : Prim2SF y <> S754_nan)
    by (intros Hy; apply is_nan_spec in Hy; congruence).
  assert (E1 : Prim2SF 1 = S754_finite false 4503599627370496 (-52))
    by (vm_compute; reflexivity).
  assert (E40 : Prim2SF 40 = S754_finite false 5629499534213120 (-47))
    by (vm_compute; reflexivity).
  assert (Einf : Prim2SF infinity = S754_infinity false) by (vm_compute; reflexivity).
  rewrite ltb_spec in Hlo, Hhi. rewrite E1 in Hlo. rewrite E40 in Hhi.
  unfold is_finite, is_infinity. rewrite Hnan, eqb_spec, abs_spec, Einf. cbn [orb].
  unfold Binary64.round.
  destruct (Prim2SF y) as [s | s | | s m e] eqn:Hy.
  - discriminate Hlo.
  - destruct s; [discriminate Hlo | discriminate Hhi].
  - now elim Hnotnan.
  - destruct s; [discriminate Hlo|].
    split; [reflexivity|].
    unfold SFltb, SFcompare in Hlo, Hhi.
    rewrite Pos.compare_cont_spec in Hlo, Hhi. cbn [Pos.switch_Eq] in Hlo, Hhi.
    assert (He : (-52 <= e <= -47)%Z).
    { destruct (Z.compare_spec e (-52)); destruct (Z.compare_spec (-47) e);
        try discriminate; lia. }
    pose proof (normal_mantissa y Hy ltac:(lia)) as Hm.
    assert (Hm47 : e = (-47)%Z -> (Z.pos m <= 5629499534213120)%Z).
    { intros ->. rewrite Z.compare_refl in Hhi.
      destruct (Pos.compare_spec 5629499534213120 m) as [Hm' | Hm' | Hm'];
        try discriminate Hhi; [subst m; lia|].
      apply Pos2Z.pos_lt_pos in Hm'. lia. }
    destruct (0 <=? e)%Z eqn:H0; [apply Z.leb_le in H0; lia|].
    clear Hlo Hhi Hy Hnan Hnotnan E1 E40 Einf H0.
    assert (P47 : (2 ^ 47 = 140737488355328)%Z) by (vm_compute; reflexivity).
    assert (P48 : (2 ^ 48 = 281474976710656)%Z) by (vm_compute; reflexivity).
    assert (P49 : (2 ^ 49 = 562949953421312)%Z) by (vm_compute; reflexivity).
    assert (P50 : (2 ^ 50 = 1125899906842624)%Z) by (vm_compute; reflexivity).
    assert (P51 : (2 ^ 51 = 2251799813685248)%Z) by (vm_compute; reflexivity).
    assert (P52 : (2 ^ 52 = 4503599627370496)%Z) by (vm_compute; reflexivity).
    assert (He6 : e = (-52)%Z \/ e = (-51)%Z \/ e = (-50)%Z \/ e = (-49)%Z
                  \/ e = (-48)%Z \/ e = (-47)%Z) by lia.
    destruct He6 as [-> | [-> | [-> | [-> | [-> | ->]]]]];
      [change (- -52)%Z with 52%Z; rewrite P52
      |change (- -51)%Z with 51%Z; rewrite P51
      |change (- -50)%Z with 50%Z; rewrite P50
      |change (- -49)%Z with 49%Z; rewrite P49
      |change (- -48)%Z with 48%Z; rewrite P48
      |change (- -47)%Z with 47%Z; rewrite P47; specialize (Hm47 eq_refl)];
      clear P47 P48 P49 P50 P51 P52;
      (Z.div_mod_to_equations; lia).
Qed.






(** A rate that compares equal to 0 is +0 or -0, and so is the hundredth of
    it: the engine takes the branch [r === 0]. *)
Lemma zero_rate_branch (rate : float) :
  (rate =? 0) = true -> (rate / 100 =? 0) = true.
Proof.
  intros Hz. rewrite eqb_spec in Hz.
  assert (E0 : Prim2SF 0 = S754_zero false) by (vm_compute; reflexivity).
  rewrite E0 in Hz.
  destruct (Prim2SF rate) as [s | s | | s m e] eqn:Hrate; try discriminate Hz.
  - destruct s.
    + assert (Hneg : rate = (-0)%float) by (apply Prim2SF_inj; rewrite Hrate; reflexivity).
      rewrite Hneg. vm_compute. reflexivity.
    + assert (Hpos : rate = 0%float) by (apply Prim2SF_inj; rewrite Hrate; reflexivity).
      rewrite Hpos. vm_compute. reflexivity.
  - destruct s; discriminate Hz.
  - destruct s; discriminate Hz.
Qed.

(** What [validateField] accepts of a binary64 number: it is not [NaN] and
    neither below the minimum nor above the maximum of the rule. *)
Lemma validateField_accepts64 (field : Field) (value : float) :
  validateField field value = None
  <-> is_nan value = false
      /\ (value <? Binary64.of_Z (min (validationRules field))) = false
      /\ (Binary64.of_Z (max (validationRules field)) <? value) = false.
Proof.
  unfold validateField. cbn [isNaN less of_int Binary64.number].
  destruct (is_nan value); [split; [discriminate | intros [? _]; discriminate]|].
  destruct (value <? _); cbn [orb];
    [split; [discriminate | intros (_ & ? & _); discriminate]|].
  destruct (_ <? value);
    [split; [discriminate | intros (_ & _ & ?); discriminate]|].
  split; [now repeat split | reflexivity].
Qed.

Lemma validateAllInputs_accepts64 (input : LoanInput float) (field : Field) :
  validateAllInputs input = [] ->
  validateField field (field_value input field) = None.
Proof.
  unfold validateAllInputs. cbn [flat_map]. intros Hnil.
  destruct (validateField FloanAmount _) eqn:H1; [discriminate|].
  destruct (validateField FannualRate _) eqn:H2; [discriminate|].
  destruct (validateField Fyears _) eqn:H3; [discriminate|].
  destruct field; assumption.
Qed.

(** The term of inputs the validator accepts. *)
Lemma validated_years (input : LoanInput float) :
  validateAllInputs input = [] ->
  is_finite (years input) = true /\ (1 <= Math_round (years input) <= 40)%Z.
Proof.
  intros Hok. pose proof (validateAllInputs_accepts64 input Fyears Hok) as Hy.
  apply validateField_accepts64 in Hy as (Hnan & Hlo & Hhi).
  cbn [field_value validationRules min max] in Hnan, Hlo, Hhi.
  change (Binary64.of_Z 1) with 1 in Hlo. change (Binary64.of_Z 40) with 40 in Hhi.
  exact (@validated_term _ Hnan Hlo Hhi).
Qed.

(** [0 + x === x] for every number [x]: adding the interest 0 back to a
    principal component returns it. *)
Lemma zero_add (x : float) : is_nan x = false -> (0 + x =? x) = true.
Proof.
  intros Hnan. rewrite eqb_spec, add_spec.
  assert (Hx : Prim2SF x <> S754_nan)
    by (intros Hx; apply is_nan_spec in Hx; congruence).
  change (Prim2SF 0) with (S754_zero false).
  unfold SFeqb.
  destruct (Prim2SF x) as [s | s | | s m e]; [| | now elim Hx |].
  - destruct s; reflexivity.
  - unfold SF64add, SFadd. rewrite SFcompare_refl by discriminate. reflexivity.
  - unfold SF64add, SFadd. rewrite SFcompare_refl by discriminate. reflexivity.
Qed.





End Binary64Facts.

(** * The claims *)

(** C1.  The code misses the closed form at a small positive rate.  For
    300000 at 2e-14 percent over one year, which the validator accepts, the
    branch taken is the one of line 32, the power (1+r)^1 is exact, and the
    payment returned, which the one row carries, is 270215.98: below the
    principal, where the closed form P * r * (1+r)^1 / ((1+r)^1 - 1) is above
    it at every positive rate.  The sum 1 + r rounds to 1 + 2^-52, and
    (1+r)^n - 1 keeps 2^-52 where r was meant.  The other half of the claim
    holds of every input: each row carries the payment returned. *)
Theorem payment_misses_closed_form_binary64 :
  let input := small_rate_test64 in
  let r := (annualRate input / 100)%float in
  let res := computeMortgage input in
  validateAllInputs input = [] /\
  (0 <? r)%float = true /\
  (r === of_int 0)%js = false /\
  Math_round (years input) = 1%Z /\
  Math_pow (1 + r)%float 1 = (1 + r)%float /\
  Result.payment res = 270215.97764222982%float /\
  map (@Row.payment float) (Result.schedule res) = [270215.97764222982%float] /\
  (Result.payment res <? loanAmount input)%float = true /\
  (forall P r : R, 0 < P -> 0 < r -> P < P * r * (1 + r) ^ 1 / ((1 + r) ^ 1 - 1))%R /\
  (forall (input : LoanInput float) (row : Row.t float),
      In row (Result.schedule (computeMortgage input)) ->
      Row.payment row = Result.payment (computeMortgage input)).
Proof.
  repeat (split; [vm_compute; reflexivity|]).
  split; [|intros input row; apply schedule_row_payment].
  intros P r HP Hr.
  replace (P * r * (1 + r) ^ 1 / ((1 + r) ^ 1 - 1))%R with (P * (1 + r))%R
    by (field; lra).
  assert (0 < P * r)%R by (apply Rmult_lt_0_compat; assumption). lra.
Qed.

(** C2. In the branch [r === 0], which a rate of exactly 0 (+0 or -0) takes,
    and for a term that rounds to n >= 1, in binary64: the payment is P / n;
    there are n rows; every row has interest 0; the rows before the final one
    have the payment as principal component; the final row has the balance
    left before it, whatever residue the division left there, and ends at 0
    when that balance is finite; each ending balance is
    max(0, balance before - principal component); the totals are interest 0,
    principal P, payment = annual payment * n.  For 120000 at rate 0 over 10
    years the payment is 12000, each of the 10 rows has interest 0 and
    principal 12000, and the final ending balance is 0. *)
Theorem zero_rate_schedule :
  (forall rate : float, (rate =? 0)%float = true -> (rate / 100 =? 0)%float = true) /\
  (forall input : LoanInput float,
      (annualRate input / 100 =? 0)%float = true ->
      (1 <= Math_round (years input))%Z ->
      let P := loanAmount input in
      let n := Math_round (years input) in
      let res := computeMortgage input in
      Result.payment res = (P / Binary64.of_Z n)%float /\
      length (Result.schedule res) = Z.to_nat n /\
      (forall i, (i < Z.to_nat n)%nat ->
         exists row,
           let before := balance_before P (Result.schedule res) i in
           nth_error (Result.schedule res) i = Some row /\
           Row.year row = (Z.of_nat i + 1)%Z /\
           Row.payment row = Result.payment res /\
           Row.interest row = 0%float /\
           ((Z.of_nat i + 1 < n)%Z -> Row.principal row = Result.payment res) /\
           ((Z.of_nat i + 1 = n)%Z ->
            Row.principal row = before /\
            (is_finite before = true -> Row.endingBalance row = 0%float)) /\
           Row.endingBalance row = Binary64.max 0 (before - Row.principal row)%float) /\
      Result.totals res
      = Totals.make (Result.payment res * Binary64.of_Z n)%float 0%float P) /\
  (let res := computeMortgage zero_interest_test64 in
   Result.payment res = 12000%float /\
   map (fun row => (Row.interest row, Row.principal row)) (Result.schedule res)
   = repeat (0%float, 12000%float) 10 /\
   option_map (@Row.endingBalance float) (nth_error (Result.schedule res) 9)
   = Some 0%float /\
   Result.totals res = Totals.make 120000%float 0%float 120000%float).
Proof.
  split; [exact zero_rate_branch|].
  split; [|vm_compute; repeat split].
  intros input Hbranch Hn P n res.
  assert (Hr : (annualRate input / of_int 100 === of_int 0)%js = true) by exact Hbranch.
  pose proof (computeMortgage_zero input Hr) as Hres. cbn zeta in Hres.
  fold P n in Hres.
  split; [subst res; now rewrite Hres|].
  split; [apply schedule_length|].
  split; [|subst res; now rewrite Hres].
  intros i Hi.
  destruct (@zero_branch_row _ _ input i Hr Hi) as (row & Hnth & Hrow).
  fold P n res in Hnth, Hrow.
  exists row. cbn zeta. split; [exact Hnth|]. rewrite Hrow.
  cbn [Row.year Row.payment Row.interest Row.principal Row.endingBalance
       Math_max of_int sub Binary64.number].
  change (Binary64.of_Z 0) with 0%float.
  split; [reflexivity|]. split; [reflexivity|]. split; [reflexivity|].
  destruct (Z.eqb_spec (Z.of_nat i + 1) n) as [Heq | Hne].
  - split; [intros Hlt; lia|]. split; [|reflexivity].
    intros _. split; [reflexivity|].
    intros Hfin. rewrite (sub_self_finite _ Hfin). reflexivity.
  - split; [reflexivity|]. split; [intros Heq; lia | reflexivity].
Qed.

(** 1000 at rate 0 over three years: the payment is 333.33333333333331, and
    the final row repays the 333.33333333333343 that two rounded payments
    left, not the payment. *)
Lemma zero_rate_schedule_witness :
  let res := computeMortgage third_residue_test64 in
  Result.payment res = (1000 / 3)%float /\
  exists final,
    nth_error (Result.schedule res) 2 = Some final /\
    Row.principal final = 333.33333333333343%float /\
    Row.endingBalance final = 0%float.
Proof.
  intros res.
  assert (Hn : (1 <= Math_round (years third_residue_test64))%Z)
    by (vm_compute; discriminate).
  destruct (proj1 (proj2 zero_rate_schedule) third_residue_test64 eq_refl Hn)
    as (Hpay & _ & Hrows & _).
  split; [exact Hpay|].
  destruct (Hrows 2%nat ltac:(vm_compute; lia))
    as (final & Hnth & _ & _ & _ & _ & Hlast & _).
  destruct (Hlast eq_refl) as [Hprin Hzero].
  exists final. split; [exact Hnth|]. split.
  - rewrite Hprin. vm_compute. reflexivity.
  - apply Hzero. vm_compute. reflexivity.
Defined.




(** C4. In the branch taken when the rate is not 0, for every number type:
    the schedule has one row per year, and the row of each year charges as
    interest the balance before that year times r; its principal component is
    the payment minus that interest in every year but the final one, where it
    is the balance before the year, the interest being unchanged; its ending
    balance is max(0, balance before - principal component). *)
Theorem final_year_clamp {num : Type} {number : JSNumber num}
    (input : LoanInput num) (i : nat) :
  let r := (annualRate input / of_int 100)%js in
  let n := Math_round (years input) in
  let res := computeMortgage input in
  let before := balance_before (loanAmount input) (Result.schedule res) i in
  (r === of_int 0)%js = false ->
  (i < Z.to_nat n)%nat ->
  length (Result.schedule res) = Z.to_nat n /\
  exists row,
    nth_error (Result.schedule res) i = Some row /\
    Row.year row = (Z.of_nat i + 1)%Z /\
    Row.interest row = (before * r)%js /\
    ((Z.of_nat i + 1 < n)%Z ->
     Row.principal row = (Result.payment res - Row.interest row)%js) /\
    ((Z.of_nat i + 1 = n)%Z -> Row.principal row = before) /\
    Row.endingBalance row = Math_max (of_int 0) (before - Row.principal row)%js.
Proof.
  intros r n res before Hr Hi.
  split; [apply schedule_length|].
  destruct (@amortize_branch_row _ _ input i Hr Hi) as (row & Hnth & Hrow).
  fold r n res before in Hnth, Hrow.
  exists row. split; [exact Hnth|]. rewrite Hrow.
  cbn [Row.year Row.interest Row.principal Row.endingBalance].
  split; [reflexivity|]. split; [reflexivity|].
  destruct (Z.eqb_spec (Z.of_nat i + 1) n) as [Heq | Hne].
  - split; [intros Hlt; lia|]. split; reflexivity.
  - split; [reflexivity|]. split; [intros Heq; lia | reflexivity].
Qed.

(** 100000 at 12.5 percent over three years, in binary64: year 2 takes the
    payment minus its interest, the final year takes the balance before it. *)
Lemma final_year_clamp_witness :
  let res := computeMortgage three_year_test64 in
  (exists row,
      nth_error (Result.schedule res) 1 = Some row /\
      Row.interest row = (70506.912442396308 * (12.5 / 100))%float /\
      Row.principal row = (41993.087557603685 - Row.interest row)%float) /\
  (exists row,
      nth_error (Result.schedule res) 2 = Some row /\
      Row.interest row = (37327.188940092165 * (12.5 / 100))%float /\
      Row.principal row = 37327.188940092165%float).
Proof.
  intros res. split.
  - destruct (@final_year_clamp float Binary64.number three_year_test64 1
                ltac:(vm_compute; reflexivity) ltac:(vm_compute; lia))
      as (_ & row & Hnth & _ & Hint & Hreg & _ & _).
    exists row. split; [exact Hnth|]. split.
    + rewrite Hint. vm_compute. reflexivity.
    + rewrite Hreg by (vm_compute; reflexivity).
      assert (Hpay : Result.payment (computeMortgage three_year_test64)
                     = 41993.087557603685%float) by (vm_compute; reflexivity).
      rewrite Hpay. reflexivity.
  - destruct (@final_year_clamp float Binary64.number three_year_test64 2
                ltac:(vm_compute; reflexivity) ltac:(vm_compute; lia))
      as (_ & row & Hnth & _ & Hint & _ & Hlast & _).
    exists row. split; [exact Hnth|]. split.
    + rewrite Hint. vm_compute. reflexivity.
    + rewrite Hlast by (vm_compute; reflexivity). vm_compute. reflexivity.
Defined.

(** C5, as amended.  The engine checks nothing and signals no error: for a
    finite term that rounds below 1 the loop body never runs and the schedule
    returned is empty.  Rejecting inputs is the callers' part: [recalc] and
    the input handler store a schedule only for inputs on which
    [validateAllInputs] reports no error.  In binary64 these are the inputs
    of which no field is [NaN], below the minimum or above the maximum of its
    rule (a loan amount in [1000, 10000000], a rate in [0, 25], a term in
    [1, 40]); their term is finite and rounds to an integer from 1 to 40,
    which is the number of rows the engine then returns. *)
Theorem engine_signals_no_error :
  (forall input : LoanInput float,
      is_finite (years input) = true ->
      (Math_round (years input) < 1)%Z ->
      Result.schedule (computeMortgage input) = []) /\
  (forall (num : Type) (number : JSNumber num) (s : State.t num),
      (State.schedule (recalc s) <> None -> validateAllInputs (state_inputs s) = []) /\
      (forall id val,
          State.schedule (update id val s) <> None ->
          validateAllInputs (state_inputs (set_field s id val)) = [])) /\
  (forall input : LoanInput float,
      validateAllInputs input = [] ->
      (forall field,
          is_nan (field_value input field) = false /\
          (field_value input field <? Binary64.of_Z (min (validationRules field)))%float
          = false /\
          (Binary64.of_Z (max (validationRules field)) <? field_value input field)%float
          = false) /\
      is_finite (years input) = true /\
      (1 <= Math_round (years input) <= 40)%Z /\
      length (Result.schedule (computeMortgage input))
      = Z.to_nat (Math_round (years input))).
Proof.
  split; [|split].
  - intros input _. apply schedule_empty.
  - intros num number s. split; [apply recalc_guard | intros id val; apply update_guard].
  - intros input Hok. split; [|split; [|split]].
    + intros field. apply validateField_accepts64.
      now apply validateAllInputs_accepts64.
    + apply (validated_years input Hok).
    + apply (validated_years input Hok).
    + apply schedule_length.
Qed.

(** C5 as stated fails.  For a term of 0 years at rate 0 the call returns,
    with an infinite payment, no row, and a total payment that is not a
    number; nothing is thrown. *)
Lemma no_domain_error_on_invalid_input :
  (Math_round (years zero_term_test64) < 1)%Z /\
  call_computeMortgage zero_term_test64
  = Returns (Result.make infinity [] (Totals.make nan 0%float 300000%float)) /\
  (forall e, call_computeMortgage zero_term_test64 <> Throws e).
Proof.
  split; [reflexivity|]. split; [vm_compute; reflexivity | discriminate].
Qed.

(** C6.  The code breaks the conservation of the totals at a small positive
    rate the validator accepts.  At r = 2e-16 the sum 1 + r rounds to
    1 + 2^-52, so (1+r)^1 - 1 is 2^-52 where r was meant and the payment
    comes out about 10 percent too small, while the clamped final row still
    repays the whole balance: interest + principal and the total payment are
    29784 apart, far beyond a relative 1e-6.  At 12.5 percent over three
    years, and at rate 0, the totals are within that tolerance. *)
Lemma conservation_fails_binary64 :
  let t := Result.totals (computeMortgage small_rate_test64) in
  validateAllInputs small_rate_test64 = [] /\
  t = Totals.make 270215.97764222982%float 6e-11%float 300000%float /\
  (Totals.interest t + Totals.principal t)%float = 300000.00000000006%float /\
  within_relative 1e-6 (Totals.interest t + Totals.principal t) (Totals.payment t) = false /\
  within_relative 1e-6 (Totals.payment t) (Totals.interest t + Totals.principal t) = false /\
  (let t' := Result.totals (computeMortgage three_year_test64) in
   within_relative 1e-6 (Totals.interest t' + Totals.principal t') (Totals.payment t')
   = true) /\
  (let t' := Result.totals (computeMortgage third_residue_test64) in
   within_relative 1e-6 (Totals.interest t' + Totals.principal t') (Totals.payment t')
   = true).
Proof. vm_compute. repeat split. Qed.

(** C7.  The code loses the total principal at a small positive rate the
    validator accepts.  At r = 1e-17 the sum 1 + r rounds to 1,
    the denominator of the payment is 0 and the payment is infinite; so are
    the principal component of the first row and the total principal, which
    no tolerance brings back to the loan amount.  At 12.5 percent over three
    years the total principal is within a relative 1e-6 of the loan amount,
    and at rate 0 it is the loan amount. *)
Lemma total_principal_infinite_binary64 :
  let res := computeMortgage vanishing_rate_test64 in
  validateAllInputs vanishing_rate_test64 = [] /\
  Result.payment res = infinity /\
  map (@Row.principal float) (Result.schedule res) = [infinity; 0%float] /\
  Totals.principal (Result.totals res) = infinity /\
  within_relative 1e-6 (Totals.principal (Result.totals res)) 300000 = false /\
  within_relative 1e-6
    (Totals.principal (Result.totals (computeMortgage three_year_test64))) 100000 = true /\
  Totals.principal (Result.totals (computeMortgage third_residue_test64)) = 1000%float.
Proof. vm_compute. repeat split. Qed.



(** C9. The engine is a function of its three inputs alone.  Two inputs with
    the same three fields give the same payment, schedule and totals; a call
    returns without an exception; and through [recalc], which runs the engine
    on the inputs held in the shared state object, the stored result does not
    depend on anything else the state holds (view mode, earlier results,
    earlier errors): two states with the same inputs store the same result,
    and so does a second [recalc] run after the first. *)
Theorem computeMortgage_deterministic {num : Type} {number : JSNumber num}
    (input1 input2 : LoanInput num) (s1 s2 : State.t num) :
  loanAmount input1 = loanAmount input2 ->
  annualRate input1 = annualRate input2 ->
  years input1 = years input2 ->
  state_inputs s1 = input1 ->
  state_inputs s2 = input2 ->
  computeMortgage input1 = computeMortgage input2 /\
  call_computeMortgage input1 = Returns (computeMortgage input2) /\
  stored_result (recalc s1) = stored_result (recalc s2) /\
  stored_result (recalc (recalc s1)) = stored_result (recalc s1).
Proof.
  intros HP Hrate Hyears Hs1 Hs2.
  assert (Hin : input1 = input2)
    by (destruct input1, input2; simpl in *; congruence).
  rewrite <- Hin in Hs2 |- *.
  split; [reflexivity|]. split; [reflexivity|]. split.
  - rewrite !recalc_stored. now rewrite Hs1, Hs2.
  - rewrite !recalc_stored. now rewrite recalc_inputs.
Qed.

Lemma computeMortgage_deterministic_witness :
  stored_result (recalc (State.make 300000%float 6.5%float 30%float table
                           (Some []) (Some 1%float) None [(Fyears, "stale"%string)]))
  = stored_result (recalc initial_state64).
Proof.
  apply (computeMortgage_deterministic (number := Binary64.number)
           (input1 := state_inputs initial_state64) (input2 := state_inputs initial_state64)
           (s1 := State.make 300000%float 6.5%float 30%float table
                    (Some []) (Some 1%float) None [(Fyears, "stale"%string)])
           (s2 := initial_state64));
    reflexivity.
Defined.

(** C10, as amended.  In every row but the final one, and for every number
    type: the row carries the payment; in the branch [r === 0] its interest
    is 0 and its principal component is the payment; in the other branch its
    interest is the balance before the row times r and its principal
    component is the difference payment - interest as the number type
    computes it, in binary64 the rounded difference.  In binary64 the rows of
    the branch [r === 0] keep the identity exactly: interest + principal
    [===] payment, whenever the payment is a number. *)
Theorem row_identity_by_branch :
  (forall (num : Type) (number : JSNumber num) (input : LoanInput num) (i : nat),
      let r := (annualRate input / of_int 100)%js in
      let n := Math_round (years input) in
      let res := computeMortgage input in
      let before := balance_before (loanAmount input) (Result.schedule res) i in
      (Z.of_nat i + 1 < n)%Z ->
      exists row,
        nth_error (Result.schedule res) i = Some row /\
        Row.payment row = Result.payment res /\
        ((r === of_int 0)%js = true ->
         Row.interest row = of_int 0 /\ Row.principal row = Row.payment row) /\
        ((r === of_int 0)%js = false ->
         Row.interest row = (before * r)%js /\
         Row.principal row = (Row.payment row - Row.interest row)%js)) /\
  (forall (input : LoanInput float) (i : nat),
      let n := Math_round (years input) in
      let res := computeMortgage input in
      (Z.of_nat i + 1 < n)%Z ->
      (annualRate input / 100 =? 0)%float = true ->
      exists row,
        nth_error (Result.schedule res) i = Some row /\
        (is_nan (Row.payment row) = false ->
         (Row.interest row + Row.principal row =? Row.payment row)%float = true)).
Proof.
  split.
  - intros num number input i r n res before Hi.
    assert (Hi' : (i < Z.to_nat n)%nat) by lia.
    destruct (Z.eqb_spec (Z.of_nat i + 1) n) as [Heq | Hne]; [lia|].
    destruct (r === of_int 0)%js eqn:Hr.
    + destruct (@zero_branch_row _ _ input i Hr Hi') as (row & Hnth & Hrow).
      fold r n res before in Hnth, Hrow.
      destruct (Z.eqb_spec (Z.of_nat i + 1) n) as [Heq | _] in Hrow; [lia|].
      exists row. split; [exact Hnth|]. rewrite Hrow.
      cbn [Row.payment Row.interest Row.principal].
      split; [reflexivity|]. split; [intros _; split; reflexivity | discriminate].
    + destruct (@amortize_branch_row _ _ input i Hr Hi') as (row & Hnth & Hrow).
      fold r n res before in Hnth, Hrow.
      destruct (Z.eqb_spec (Z.of_nat i + 1) n) as [Heq | _] in Hrow; [lia|].
      exists row. split; [exact Hnth|]. rewrite Hrow.
      cbn [Row.payment Row.interest Row.principal].
      split; [reflexivity|]. split; [discriminate | intros _; split; reflexivity].
  - intros input i n res Hi Hbranch.
    assert (Hr : (annualRate input / of_int 100 === of_int 0)%js = true) by exact Hbranch.
    destruct (@zero_branch_row _ _ input i Hr ltac:(lia)) as (row & Hnth & Hrow).
    fold n res in Hnth, Hrow.
    destruct (Z.eqb_spec (Z.of_nat i + 1) n) as [Heq | _] in Hrow; [lia|].
    exists row. split; [exact Hnth|]. rewrite Hrow.
    cbn [Row.payment Row.interest Row.principal].
    change (@of_int float Binary64.number 0) with 0%float.
    apply zero_add.
Qed.

(** Year 2 of 100000 at 12.5 percent over three years, and year 1 of 1000 at
    rate 0 over three years, in binary64. *)
Lemma row_identity_by_branch_witness :
  (exists row,
      nth_error (Result.schedule (computeMortgage three_year_test64)) 1 = Some row /\
      Row.interest row = 8813.3640552995384%float /\
      Row.principal row = (41993.087557603685 - 8813.3640552995384)%float) /\
  (exists row,
      nth_error (Result.schedule (computeMortgage third_residue_test64)) 0 = Some row /\
      (Row.interest row + Row.principal row =? Row.payment row)%float = true).
Proof.
  split.
  - destruct (proj1 row_identity_by_branch float Binary64.number three_year_test64 1%nat
                ltac:(vm_compute; reflexivity))
      as (row & Hnth & Hpay & _ & Hpos).
    destruct (Hpos ltac:(vm_compute; reflexivity)) as [Hint Hprin].
    exists row. split; [exact Hnth|].
    assert (Hint' : Row.interest row = 8813.3640552995384%float)
      by (rewrite Hint; vm_compute; reflexivity).
    split; [exact Hint'|].
    rewrite Hprin, Hpay, Hint'. vm_compute. reflexivity.
  - destruct (proj2 row_identity_by_branch third_residue_test64 0%nat
                ltac:(vm_compute; reflexivity) eq_refl)
      as (row & Hnth & Hsum).
    exists row. split; [exact Hnth|].
    apply Hsum.
    assert (Hrow : row = Row.make 1 (1000 / 3)%float 0%float (1000 / 3)%float
                           (1000 - 1000 / 3)%float)
      by (vm_compute in Hnth |- *; congruence).
    rewrite Hrow. reflexivity.
Defined.

(** C10 as stated fails in binary64.  For 100000 at 12.5 percent over three
    years (1 + r)^3 = 1.423828125 is exact, so every step of the run is a
    correctly rounded operation.  In year 2, which is not the final year, the
    principal component is the rounded difference payment - interest, and
    adding the interest back falls one unit in the last place short of the
    payment. *)
Lemma row_identity_rounds_binary64 :
  let res := computeMortgage three_year_test64 in
  let row := Row.make 2 41993.087557603685%float 8813.3640552995384%float
               33179.723502304143%float 37327.188940092165%float in
  validateAllInputs three_year_test64 = [] /\
  Math_round (years three_year_test64) = 3%Z /\
  Math_pow (1 + 12.5 / 100)%float 3 = 1.423828125%float /\
  nth_error (Result.schedule res) 1 = Some row /\
  Row.principal row = (Row.payment row - Row.interest row)%float /\
  (Row.interest row + Row.principal row)%float = 41993.087557603678%float /\
  PrimFloat.eqb (Row.interest row + Row.principal row) (Row.payment row) = false.
Proof. vm_compute. repeat split. Qed.

(** * Further properties *)

(** ** The engine in binary64 *)

(** X7. In binary64, whatever the input, no row of the schedule ends on a
    negative balance: the ending balance is [NaN], or +0, or positive. *)
Theorem ending_balance_never_negative_binary64 (input : LoanInput float)
    (i : nat) (row : Row.t float) :
  nth_error (Result.schedule (computeMortgage input)) i = Some row ->
  is_nan (Row.endingBalance row) = true
  \/ Row.endingBalance row = 0%float
  \/ PrimFloat.ltb 0 (Row.endingBalance row) = true.
Proof.
  intros Hnth. apply schedule_row in Hnth. rewrite Hnth.
  unfold row_at. cbn [Row.endingBalance Math_max of_int Binary64.number].
  change (Binary64.of_Z 0) with 0%float. apply max_zero_cases.
Qed.

Lemma ending_balance_never_negative_binary64_witness :
  let row := Row.make 2 41993.087557603685%float 8813.3640552995384%float
               33179.723502304143%float 37327.188940092165%float in
  is_nan (Row.endingBalance row) = true
  \/ Row.endingBalance row = 0%float
  \/ PrimFloat.ltb 0 (Row.endingBalance row) = true.
Proof.
  intros row.
  apply (ending_balance_never_negative_binary64 three_year_test64 1 (row := row)).
  vm_compute. reflexivity.
Defined.

(** X8. In binary64, for a term that rounds to n >= 1, the final row takes
    the whole balance before it as principal component and ends at exactly
    +0, provided that balance is finite (neither [NaN] nor infinite), in
    either branch. *)
Theorem final_balance_zero_binary64 (input : LoanInput float) (row : Row.t float) :
  let n := Math_round (years input) in
  let res := computeMortgage input in
  let before := balance_before (loanAmount input) (Result.schedule res) (Z.to_nat n - 1) in
  (1 <= n)%Z ->
  nth_error (Result.schedule res) (Z.to_nat n - 1) = Some row ->
  is_finite before = true ->
  Row.principal row = before /\ Row.endingBalance row = 0%float.
Proof.
  intros n res before Hn Hnth Hfin. apply schedule_row in Hnth.
  fold res n before in Hnth. rewrite Hnth.
  unfold row_at. cbn [Row.principal Row.endingBalance Math_max of_int sub Binary64.number].
  replace (Z.of_nat (Z.to_nat n - 1) + 1 =? n)%Z with true
    by (symmetry; apply Z.eqb_eq; lia).
  split; [reflexivity|].
  rewrite (sub_self_finite _ Hfin). reflexivity.
Qed.

Lemma final_balance_zero_binary64_witness :
  let row := Row.make 3 41993.087557603685%float 4665.8986175115206%float
               37327.188940092165%float 0%float in
  Row.principal row = 37327.188940092165%float /\ Row.endingBalance row = 0%float.
Proof.
  intros row.
  apply (final_balance_zero_binary64 three_year_test64 (row := row));
    vm_compute; (reflexivity || discriminate).
Defined.

(** X9. For every number type, binary64 included, the total payment is the
    payment times n; in the branch [r === 0] the total interest is 0 and the
    total principal is the loan amount as given, in the other branch the two
    totals are the sums of the rows' interest and principal components, added
    from 0 in year order. *)
Theorem totals_are_running_sums {num : Type} {number : JSNumber num}
    (input : LoanInput num) :
  let r := (annualRate input / of_int 100)%js in
  let n := Math_round (years input) in
  let res := computeMortgage input in
  let t := Result.totals res in
  Totals.payment t = (Result.payment res * of_int n)%js /\
  ((r === of_int 0)%js = true ->
   Totals.interest t = of_int 0 /\ Totals.principal t = loanAmount input) /\
  ((r === of_int 0)%js = false ->
   Totals.interest t = running_sum (@Row.interest num) (Result.schedule res) (of_int 0) /\
   Totals.principal t = running_sum (@Row.principal num) (Result.schedule res) (of_int 0)).
Proof.
  intros r n res t. subst t res.
  destruct (r === of_int 0)%js eqn:Hr.
  - rewrite computeMortgage_zero by exact Hr.
    split; [reflexivity|]. split; [intros _; split; reflexivity | discriminate].
  - rewrite computeMortgage_positive by exact Hr.
    split; [reflexivity|]. split; [discriminate | intros _; split; reflexivity].
Qed.

(** ** The calculator's state over any sequence of events *)

Section MachineFacts.

Context {num : Type} `{JSNumber num}.

Lemma has_errors_false (errors : list (Field * string)) :
  has_errors errors = false -> errors = [].
Proof. destruct errors; [reflexivity | discriminate]. Qed.

Lemma update_inputs (id : Field) (val : num) (s : State.t num) :
  state_inputs (update id val s) = state_inputs (set_field s id val).
Proof.
  unfold update. destruct (negb _); [|reflexivity].
  destruct (call_computeMortgage _); reflexivity.
Qed.

Lemma update_errors (id : Field) (val : num) (s : State.t num) :
  State.errors (update id val s) = validateAllInputs (state_inputs (set_field s id val)).
Proof.
  unfold update.
  replace (state_inputs (set_field s id val))
    with {| loanAmount := match id with FloanAmount => val | _ => State.loanAmount s end;
            annualRate := match id with FannualRate => val | _ => State.annualRate s end;
            years := match id with Fyears => val | _ => State.years s end |}
    by now destruct id.
  destruct (negb _); [|reflexivity].
  destruct (call_computeMortgage _); reflexivity.
Qed.

Lemma recalc_errors (s : State.t num) :
  State.errors (recalc s)
  = if has_errors (validateAllInputs (state_inputs s))
    then validateAllInputs (state_inputs s) else State.errors s.
Proof. unfold recalc. fold (state_inputs s). now destruct (has_errors _). Qed.

(** The errors the state holds are those of the inputs it holds, and its
    result is fresh. *)
Let coherent (s : State.t num) : Prop :=
  State.errors s = validateAllInputs (state_inputs s) /\ fresh s.

Lemma step_coherent (e : Event num) (s : State.t num) :
  coherent s -> coherent (step e s).
Proof.
  intros [Herr Hfresh]. destruct e as [|id val| |]; cbn [step].
  - split.
    + rewrite recalc_errors, recalc_inputs.
      destruct (has_errors _) eqn:Hh; [reflexivity|].
      rewrite Herr. reflexivity.
    + unfold fresh. rewrite recalc_stored, recalc_inputs.
      destruct (has_errors _) eqn:Hh; [now left | right].
      split; [now apply has_errors_false | reflexivity].
  - split.
    + rewrite update_errors, update_inputs. reflexivity.
    + unfold fresh. rewrite update_stored, update_inputs.
      destruct (has_errors _) eqn:Hh; [now left | right].
      split; [now apply has_errors_false | reflexivity].
  - split; [exact Herr | exact Hfresh].
  - split; [exact Herr | exact Hfresh].
Qed.

Lemma run_coherent (events : list (Event num)) :
  forall s, coherent s -> coherent (run events s).
Proof.
  induction events as [|e events IH]; intros s Hs; [exact Hs|].
  cbn [run fold_left]. apply IH, step_coherent, Hs.
Qed.

Lemma run_fresh (events : list (Event num)) (s0 : State.t num) :
  State.errors s0 = validateAllInputs (state_inputs s0) ->
  stored_result s0 = (None, None, None) ->
  State.errors (run events s0) = validateAllInputs (state_inputs (run events s0))
  /\ fresh (run events s0).
Proof.
  intros Herr Hnull. apply (run_coherent events). split; [exact Herr | now left].
Qed.

End MachineFacts.

(** X10. Whatever the number type and whatever sequence of [recalc()] calls,
    input events and clicks on the two view buttons the calculator goes
    through, starting from a state without a result whose [errors] are those
    of its inputs: the [errors] the state holds are those the validator gives
    for the inputs it holds, and the result it holds is never stale: it is
    either [null] three times, or the engine's payment, schedule and totals
    for the inputs the state holds, which then passed validation. *)
Theorem stored_result_never_stale {num : Type} {number : JSNumber num}
    (events : list (Event num)) (s0 : State.t num) :
  State.errors s0 = validateAllInputs (state_inputs s0) ->
  stored_result s0 = (None, None, None) ->
  let s := run events s0 in
  State.errors s = validateAllInputs (state_inputs s) /\
  (stored_result s = (None, None, None) \/
   (State.errors s = [] /\
    stored_result s
    = (Some (Result.payment (computeMortgage (state_inputs s))),
       Some (Result.schedule (computeMortgage (state_inputs s))),
       Some (Result.totals (computeMortgage (state_inputs s)))))).
Proof.
  intros Herr Hnull s.
  destruct (run_fresh events Herr Hnull) as [Hsync [Hn | [Hok Hres]]].
  - split; [exact Hsync | now left].
  - split; [exact Hsync | right]. split; [|exact Hres].
    fold s in Hsync. rewrite Hsync. exact Hok.
Qed.

Lemma stored_result_never_stale_witness :
  let s := run [Recalc; InputChanged Fyears 0%float; ShowTable;
                InputChanged Fyears 3%float] initial_state64 in
  State.errors s = validateAllInputs (state_inputs s) /\
  (stored_result s = (None, None, None) \/
   (State.errors s = [] /\
    stored_result s
    = (Some (Result.payment (computeMortgage (state_inputs s))),
       Some (Result.schedule (computeMortgage (state_inputs s))),
       Some (Result.totals (computeMortgage (state_inputs s)))))).
Proof.
  apply (stored_result_never_stale
           [Recalc; InputChanged Fyears 0%float; ShowTable; InputChanged Fyears 3%float]
           (s0 := initial_state64));
    vm_compute; reflexivity.
Defined.

Section StoredResult.

Context {num : Type} `{JSNumber num}.
Local Open Scope js_scope.

(** What the state holds once a schedule is stored. *)
Lemma fresh_schedule (s : State.t num) (rows : list (Row.t num)) :
  fresh s ->
  State.schedule s = Some rows ->
  let res := computeMortgage (state_inputs s) in
  validateAllInputs (state_inputs s) = []
  /\ rows = Result.schedule res
  /\ State.payment s = Some (Result.payment res)
  /\ State.totals s = Some (Result.totals res).
Proof.
  intros [Hnull | [Hok Hres]] Hrows res; unfold stored_result in *.
  - congruence.
  - split; [exact Hok|]. fold res in Hres. repeat split; congruence.
Qed.

(** The total payment is the payment times the number of years, in both
    branches. *)
Lemma total_payment (input : LoanInput num) :
  Totals.payment (Result.totals (computeMortgage input))
  = Result.payment (computeMortgage input) * of_int (Math_round (years input)).
Proof.
  destruct (annualRate input / of_int 100 === of_int 0) eqn:Hr.
  - now rewrite computeMortgage_zero.
  - now rewrite computeMortgage_positive.
Qed.

End StoredResult.

(** X11. In binary64, a schedule the calculator holds after any sequence of
    events is well formed: the inputs in the state pass the validator, the
    term is finite, the schedule has as many rows as the term rounds to,
    between 1 and 40, row i (counted from 0) is the row of year i + 1 and
    carries the stored payment, no row ends on a negative balance, and the
    stored total payment is the stored payment times the number of years. *)
Theorem stored_schedule_well_formed (events : list (Event float)) (s0 : State.t float)
    (rows : list (Row.t float)) :
  State.errors s0 = validateAllInputs (state_inputs s0) ->
  stored_result s0 = (None, None, None) ->
  let s := run events s0 in
  State.schedule s = Some rows ->
  validateAllInputs (state_inputs s) = [] /\
  is_finite (State.years s) = true /\
  length rows = Z.to_nat (Math_round (State.years s)) /\
  (1 <= length rows <= 40)%nat /\
  exists p t,
    State.payment s = Some p /\ State.totals s = Some t /\
    Totals.payment t = (p * Binary64.of_Z (Math_round (State.years s)))%float /\
    forall i row, nth_error rows i = Some row ->
      Row.year row = (Z.of_nat i + 1)%Z /\
      Row.payment row = p /\
      (is_nan (Row.endingBalance row) = true
       \/ Row.endingBalance row = 0%float
       \/ (0 <? Row.endingBalance row)%float = true).
Proof.
  intros Herr Hnull s Hrows.
  destruct (run_fresh events Herr Hnull) as [_ Hfresh]. fold s in Hfresh.
  destruct (fresh_schedule Hfresh Hrows) as (Hok & Hsched & Hp & Ht).
  destruct (validated_years _ Hok) as [Hfin Hn].
  cbn [state_inputs years] in Hfin, Hn.
  assert (Hlen : length rows = Z.to_nat (Math_round (State.years s)))
    by (rewrite Hsched; apply schedule_length).
  split; [exact Hok|]. split; [exact Hfin|]. split; [exact Hlen|].
  split; [rewrite Hlen; lia|].
  exists (Result.payment (computeMortgage (state_inputs s))),
         (Result.totals (computeMortgage (state_inputs s))).
  split; [exact Hp|]. split; [exact Ht|].
  split; [exact (total_payment (state_inputs s))|].
  intros i row Hnth. rewrite Hsched in Hnth. apply schedule_row in Hnth.
  rewrite Hnth. unfold row_at.
  cbn [Row.year Row.payment Row.endingBalance Math_max of_int Binary64.number].
  change (Binary64.of_Z 0) with 0%float.
  split; [reflexivity|]. split; [reflexivity | apply max_zero_cases].
Qed.

Lemma stored_schedule_well_formed_witness :
  let s := run [Recalc; InputChanged FloanAmount 100000%float;
                InputChanged FannualRate 12.5%float; InputChanged Fyears 3%float]
             initial_state64 in
  exists rows, State.schedule s = Some rows /\ (1 <= length rows <= 40)%nat.
Proof.
  intros s.
  exists (Result.schedule (computeMortgage three_year_test64)).
  assert (Hs : State.schedule s = Some (Result.schedule (computeMortgage three_year_test64)))
    by (vm_compute; reflexivity).
  split; [exact Hs|].
  apply (@stored_schedule_well_formed
           [Recalc; InputChanged FloanAmount 100000%float;
            InputChanged FannualRate 12.5%float; InputChanged Fyears 3%float]
           initial_state64 _ eq_refl eq_refl Hs).
Defined.

(** X12. For every number type and after any sequence of events, the listener
    [handleStateChange] renders nothing when the state holds no schedule;
    when it holds one, the schedule, the payment and the totals in the state
    are the engine's for the inputs in the state, and the listener renders
    the results card with that payment and those totals, followed by exactly
    the view that is visible (the chart in chart mode, the schedule table
    with the totals in table mode), unless the payment is 0 or [NaN], when it
    renders nothing. *)
Theorem listener_renders_visible_view {num : Type} {number : JSNumber num}
    (events : list (Event num)) (s0 : State.t num) (innerWidth : Z) :
  State.errors s0 = validateAllInputs (state_inputs s0) ->
  stored_result s0 = (None, None, None) ->
  let s := run events s0 in
  match State.schedule s with
  | None => handleStateChange innerWidth s = []
  | Some rows =>
      let res := computeMortgage (state_inputs s) in
      rows = Result.schedule res /\
      State.payment s = Some (Result.payment res) /\
      State.totals s = Some (Result.totals res) /\
      handleStateChange innerWidth s
      = if truthy (Result.payment res)
        then RenderResults (Result.payment res) (Result.totals res) (State.years s)
             :: match State.viewMode s with
                | chart => [RenderChart rows (shouldShowLabels innerWidth)]
                | table => [RenderScheduleTable rows (Result.totals res)]
                end
        else []
  end.
Proof.
  intros Herr Hnull s.
  destruct (run_fresh events Herr Hnull) as [_ Hfresh]. fold s in Hfresh.
  destruct (State.schedule s) as [rows|] eqn:Hrows.
  - destruct (fresh_schedule Hfresh Hrows) as (_ & Hsched & Hp & Ht).
    cbn zeta. split; [exact Hsched|]. split; [exact Hp|]. split; [exact Ht|].
    unfold handleStateChange. rewrite Hrows, Hp, Ht. reflexivity.
  - unfold handleStateChange. rewrite Hrows. reflexivity.
Qed.

Lemma listener_renders_visible_view_witness :
  let s := run [Recalc; InputChanged FloanAmount 100000%float;
                InputChanged FannualRate 12.5%float; InputChanged Fyears 3%float;
                ShowTable]
             initial_state64 in
  let res := computeMortgage three_year_test64 in
  handleStateChange 1024 s
  = [RenderResults (Result.payment res) (Result.totals res) 3%float;
     RenderScheduleTable (Result.schedule res) (Result.totals res)].
Proof.
  intros s res.
  pose proof (@listener_renders_visible_view float Binary64.number
                [Recalc; InputChanged FloanAmount 100000%float;
                 InputChanged FannualRate 12.5%float; InputChanged Fyears 3%float;
                 ShowTable]
                initial_state64 1024 eq_refl eq_refl) as Hview.
  cbn zeta in Hview. fold s in Hview.
  assert (Hs : State.schedule s = Some (Result.schedule res)) by (vm_compute; reflexivity).
  rewrite Hs in Hview. destruct Hview as (_ & _ & _ & Hrender).
  rewrite Hrender. vm_compute. reflexivity.
Defined.

(** ** The chart's focus index *)

Section ChartFacts.

Context {num : Type}.

Implicit Types (rows : list (Row.t num)) (c : Chart.t num).

Lemma row_at_index_some rows (i : Z) :
  (0 <= i < Z.of_nat (length rows))%Z ->
  exists row, row_at_index rows i = Some row /\ In row rows.
Proof.
  intros Hi. unfold row_at_index.
  destruct (i <? 0)%Z eqn:Hneg; [apply Z.ltb_lt in Hneg; lia|].
  destruct (nth_error rows (Z.to_nat i)) as [row|] eqn:Hnth.
  - exists row. split; [reflexivity | eapply nth_error_In, Hnth].
  - apply nth_error_None in Hnth. lia.
Qed.

Lemma row_at_index_none rows (i : Z) :
  (i < 0 \/ Z.of_nat (length rows) <= i)%Z -> row_at_index rows i = None.
Proof.
  intros Hi. unfold row_at_index.
  destruct (i <? 0)%Z eqn:Hneg; [reflexivity|].
  apply Z.ltb_ge in Hneg. apply nth_error_None. lia.
Qed.

Lemma announce_in_range rows (i : Z) :
  (0 <= i < Z.of_nat (length rows))%Z ->
  exists row, In row rows /\ row_at_index rows i = Some row
              /\ announceDataPoint rows i = Announce row (Row.payment row).
Proof.
  intros Hi. destruct (@row_at_index_some rows _ Hi) as (row & Hrow & Hin).
  exists row. unfold announceDataPoint. rewrite Hrow. auto.
Qed.

Lemma key_target_in_range (key : Key) (current maxIndex newIndex : Z) :
  (0 <= current <= maxIndex)%Z ->
  key_target key current maxIndex = Some newIndex ->
  (0 <= newIndex <= maxIndex)%Z.
Proof. intros Hc Hk. destruct key; cbn in Hk; inversion Hk; lia. Qed.

(** The keydown listener keeps the index on a row and announces rows only. *)
Lemma keydown_in_range rows (key : Key) c :
  (0 <= Chart.currentFocusIndex c < Z.of_nat (length rows))%Z ->
  Chart.keydownListener (fst (keydown rows key c)) = Chart.keydownListener c
  /\ Chart.focusListeners (fst (keydown rows key c)) = Chart.focusListeners c
  /\ Chart.isKeyboardMode (fst (keydown rows key c)) = true
  /\ (0 <= Chart.currentFocusIndex (fst (keydown rows key c)) < Z.of_nat (length rows))%Z
  /\ forall a, In a (snd (keydown rows key c)) ->
       exists row, In row rows /\ a = Announce row (Row.payment row).
Proof.
  intros Hc. unfold keydown.
  destruct (key_target key _ _) as [newIndex|] eqn:Hk.
  - assert (Hnew : (0 <= newIndex <= Z.of_nat (length rows) - 1)%Z)
      by (eapply key_target_in_range; [|exact Hk]; lia).
    destruct (newIndex =? _)%Z; cbn.
    + repeat split; try tauto; lia.
    + repeat split; try lia.
      intros a [<- | []].
      destruct (@announce_in_range rows newIndex) as (row & Hin & _ & Ha); [lia|].
      exists row. split; [exact Hin | exact Ha].
  - cbn. repeat split; try tauto; lia.
Qed.

Lemma chart_step_settled (e : ChartEvent num) c :
  renders_rows e -> settled c -> settled (fst (chart_step e c)).
Proof.
  intros He Hc. unfold settled in *.
  destruct e as [rows|key| |]; cbn [chart_step].
  - cbn. split.
    + destruct rows; [now elim He | cbn [length]; lia].
    + now exists (Chart.focusListeners c).
  - destruct (Chart.keydownListener c) as [rows|] eqn:Hl.
    + destruct Hc as [Hrange Hstale].
      destruct (@keydown_in_range rows key c Hrange) as (Hk & Hf & _ & Hr & _).
      rewrite Hk, Hl, Hf. split; [exact Hr | exact Hstale].
    + cbn. rewrite Hl. exact Hc.
  - cbn. destruct (Chart.keydownListener c) as [rows|] eqn:Hl; [exact Hc|].
    subst c. reflexivity.
  - cbn. destruct (Chart.keydownListener c) as [rows|] eqn:Hl; [exact Hc|].
    subst c. reflexivity.
Qed.

Lemma chart_run_settled (events : list (ChartEvent num)) :
  forall c, Forall renders_rows events -> settled c ->
    settled (fst (chart_run events c)).
Proof.
  induction events as [|e events IH]; intros c Hall Hc; [exact Hc|].
  inversion Hall as [|? ? He Hrest]; subst.
  cbn [chart_run].
  pose proof (@chart_step_settled e c He Hc) as Hstep.
  destruct (chart_step e c) as [c' a]. cbn [fst] in Hstep.
  specialize (IH _ Hrest Hstep).
  destruct (chart_run events c') as [c'' log]. exact IH.
Qed.

End ChartFacts.

(** X13. Keyboard navigation of the chart never leaves the rows.  After any
    sequence of renderings of non-empty schedules, key presses, focus and
    mouse events on the canvas, either no chart was rendered yet and the
    module is as loaded, or the focus index addresses a row of the chart on
    display, every key press leaves it on such a row and announces nothing
    but such a row with its own payment, and on focus the last announcement,
    the one that stays in the live region, is the row in focus. *)
Theorem keyboard_focus_stays_on_a_row {num : Type} (events : list (ChartEvent num)) :
  Forall renders_rows events ->
  let c := fst (chart_run events chart_loaded) in
  match Chart.keydownListener c with
  | None => c = chart_loaded
  | Some rows =>
      exists row,
        row_at_index rows (Chart.currentFocusIndex c) = Some row /\
        (forall key a, In a (snd (chart_step (KeyDown key) c)) ->
           exists row', In row' rows /\ a = Announce row' (Row.payment row')) /\
        (forall key,
           row_at_index rows
             (Chart.currentFocusIndex (fst (chart_step (KeyDown key) c))) <> None) /\
        exists stale, snd (chart_step Focused c) = stale ++ [Announce row (Row.payment row)]
  end.
Proof.
  intros Hall c.
  assert (Hc : settled c) by (apply chart_run_settled; [exact Hall | reflexivity]).
  unfold settled in Hc.
  destruct (Chart.keydownListener c) as [rows|] eqn:Hl; [|exact Hc].
  destruct Hc as [Hrange [stale Hstale]].
  destruct (@announce_in_range num rows _ Hrange) as (row & Hin & Hrow & Ha).
  exists row. split; [exact Hrow|]. split; [|split].
  - intros key a. cbn [chart_step]. rewrite Hl.
    apply (@keydown_in_range num rows key c Hrange).
  - intros key. cbn [chart_step]. rewrite Hl.
    destruct (@keydown_in_range num rows key c Hrange) as (_ & _ & _ & Hr & _).
    destruct (@row_at_index_some num rows _ Hr) as (row' & Hrow' & _).
    rewrite Hrow'. discriminate.
  - cbn [chart_step snd]. rewrite Hstale, map_app. cbn [map]. rewrite Ha.
    now eexists.
Qed.

Lemma keyboard_focus_stays_on_a_row_witness :
  let rows := Result.schedule (computeMortgage three_year_test64) in
  let c := fst (chart_run [Rendered rows; KeyDown End_; Focused; KeyDown ArrowLeft]
                  chart_loaded) in
  match Chart.keydownListener c with
  | None => c = chart_loaded
  | Some rows =>
      exists row,
        row_at_index rows (Chart.currentFocusIndex c) = Some row /\
        (forall key a, In a (snd (chart_step (KeyDown key) c)) ->
           exists row', In row' rows /\ a = Announce row' (Row.payment row')) /\
        (forall key,
           row_at_index rows
             (Chart.currentFocusIndex (fst (chart_step (KeyDown key) c))) <> None) /\
        exists stale, snd (chart_step Focused c) = stale ++ [Announce row (Row.payment row)]
  end.
Proof.
  intros rows.
  apply (keyboard_focus_stays_on_a_row
           (events := [Rendered rows; KeyDown End_; Focused; KeyDown ArrowLeft])).
  repeat constructor. vm_compute. discriminate.
Defined.

(** X14. [setupKeyboardNavigation] replaces the keydown listener but only
    adds focus listeners, so the focus listener of an earlier rendering stays
    on the canvas with the rows of that rendering.  When a chart is rendered
    again with more rows, [End] moves the focus to the last row, and on the
    next focus event the earlier listener reads a row its schedule does not
    have and throws a [TypeError], before the current listener announces the
    row in focus. *)
Theorem stale_focus_listener_throws {num : Type} (rows1 rows2 : list (Row.t num)) :
  rows1 <> [] ->
  (length rows1 < length rows2)%nat ->
  exists row,
    nth_error rows2 (length rows2 - 1) = Some row /\
    snd (chart_run [Rendered rows1; Rendered rows2; KeyDown End_; Focused] chart_loaded)
    = [[]; []; [Announce row (Row.payment row)];
       [AnnounceTypeError; Announce row (Row.payment row)]].
Proof.
  intros Hne Hlen.
  assert (H1 : (1 <= length rows1)%nat) by (destruct rows1; [now elim Hne | cbn; lia]).
  set (last := (Z.of_nat (length rows2) - 1)%Z).
  destruct (@announce_in_range num rows2 last) as (row & _ & Hrow & Ha); [unfold last; lia|].
  exists row. split.
  - unfold row_at_index in Hrow.
    destruct (last <? 0)%Z; [discriminate|].
    replace (length rows2 - 1)%nat with (Z.to_nat last) by (unfold last; lia).
    exact Hrow.
  - cbn [chart_run chart_step Chart.keydownListener Chart.focusListeners
           Chart.currentFocusIndex Chart.isKeyboardMode chart_loaded app fst snd].
    unfold keydown. cbn [key_target Chart.currentFocusIndex Chart.keydownListener
                           Chart.focusListeners].
    fold last.
    destruct (last =? 0)%Z eqn:H0; [apply Z.eqb_eq in H0; unfold last in H0; lia|].
    cbn [chart_step Chart.keydownListener Chart.focusListeners
           Chart.currentFocusIndex Chart.isKeyboardMode map snd].
    rewrite Ha.
    unfold announceDataPoint at 1.
    rewrite row_at_index_none by (unfold last; lia).
    reflexivity.
Qed.

Lemma stale_focus_listener_throws_witness :
  let rows1 := Result.schedule (computeMortgage one_year_test64) in
  let rows2 := Result.schedule (computeMortgage three_year_test64) in
  exists row,
    nth_error rows2 (length rows2 - 1) = Some row /\
    snd (chart_run [Rendered rows1; Rendered rows2; KeyDown End_; Focused] chart_loaded)
    = [[]; []; [Announce row (Row.payment row)];
       [AnnounceTypeError; Announce row (Row.payment row)]].
Proof.
  intros rows1 rows2.
  apply (@stale_focus_listener_throws float rows1 rows2).
  - vm_compute. discriminate.
  - vm_compute. lia.
Defined.

(** X15. A chart rendered from an empty schedule has no row to focus:
    [ArrowRight], [ArrowDown] and [End] move the focus index from 0 to -1 and
    the announcement throws a [TypeError]. *)
Theorem keys_on_an_empty_chart_throw {num : Type} (c0 : Chart.t num) (key : Key) :
  In key [ArrowRight; ArrowDown; End_] ->
  Chart.currentFocusIndex (fst (chart_run [Rendered []; KeyDown key] c0)) = (-1)%Z
  /\ snd (chart_run [Rendered []; KeyDown key] c0) = [[]; [AnnounceTypeError]].
Proof.
  intros [<- | [<- | [<- | []]]]; split; reflexivity.
Qed.

Lemma keys_on_an_empty_chart_throw_witness :
  Chart.currentFocusIndex
    (fst (chart_run [Rendered []; KeyDown End_] (@chart_loaded float))) = (-1)%Z
  /\ snd (chart_run [Rendered []; KeyDown End_] (@chart_loaded float))
     = [[]; [AnnounceTypeError]].
Proof.
  apply (keys_on_an_empty_chart_throw (@chart_loaded float) (key := End_)).
  cbn. tauto.
Defined.

(** ** What the validator reports *)

Section ValidationFacts.

Context {num : Type} `{JSNumber num}.

(** The errors object has the key [field] exactly when [validateField]
    returns a message for it, and holds that message. *)
Lemma validateAllInputs_In (input : LoanInput num) (field : Field) (msg : string) :
  In (field, msg) (validateAllInputs input)
  <-> validateField field (field_value input field) = Some msg.
Proof.
  unfold validateAllInputs. rewrite in_flat_map. split.
  - intros (f & _ & Hin).
    destruct (validateField f (field_value input f)) as [e|] eqn:Hf; [|now elim Hin].
    destruct Hin as [Heq | []]. inversion Heq; subst. exact Hf.
  - intros Hf. exists field. split.
    + destruct field; cbn; tauto.
    + rewrite Hf. now left.
Qed.

Lemma validateField_nan (field : Field) (value : num) :
  isNaN value = true ->
  validateField field value = Some (label (validationRules field) ++ " is required")%string.
Proof. intros Hnan. unfold validateField. rewrite Hnan. reflexivity. Qed.

Lemma set_field_value (s : State.t num) (id : Field) (val : num) :
  field_value (state_inputs (set_field s id val)) id = val.
Proof. destruct id; reflexivity. Qed.

End ValidationFacts.

Lemma validateField_rejects (field : Field) (value : R) (msg : string) :
  validateField field value = Some msg
  <-> ((value < IZR (min (validationRules field)))%R
       \/ (IZR (max (validationRules field)) < value)%R)
      /\ msg = errorMessage (validationRules field).
Proof.
  pose proof (validateField_accepts field value) as Hacc.
  unfold validateField in *. cbn [isNaN less of_int Exact.number] in *.
  destruct (Exact.ltb value _ || Exact.ltb _ value)%bool.
  - split.
    + intros Hmsg. inversion Hmsg. split; [|reflexivity].
      destruct (Rlt_dec value (IZR (min (validationRules field)))) as [Hlo|Hlo];
        [now left|].
      destruct (Rlt_dec (IZR (max (validationRules field))) value) as [Hhi|Hhi];
        [now right|].
      assert (Hin : (IZR (min (validationRules field)) <= value
                     <= IZR (max (validationRules field)))%R) by lra.
      apply Hacc in Hin. discriminate.
    + intros [_ ->]. reflexivity.
  - split; [discriminate|].
    intros [Hout _]. assert (Hnone : @None string = None) by reflexivity.
    apply Hacc in Hnone. lra.
Qed.

(** X16. An emptied input field is reported as required.  For every number
    type: when the input handler runs on a value that is [NaN] (what
    [parseFloat] gives for an empty or non-numeric field), the state takes
    the [NaN], its errors hold "<label> is required" for that field, and the
    schedule, the payment and the totals are reset to [null], whatever the
    state held before. *)
Theorem cleared_field_is_required {num : Type} {number : JSNumber num}
    (id : Field) (val : num) (s : State.t num) :
  isNaN val = true ->
  field_value (state_inputs (update id val s)) id = val
  /\ In (id, (label (validationRules id) ++ " is required")%string)
        (State.errors (update id val s))
  /\ stored_result (update id val s) = (None, None, None).
Proof.
  intros Hnan.
  assert (Hin : In (id, (label (validationRules id) ++ " is required")%string)
                  (validateAllInputs (state_inputs (set_field s id val)))).
  { apply validateAllInputs_In. rewrite set_field_value. now apply validateField_nan. }
  split; [|split].
  - rewrite update_inputs. apply set_field_value.
  - rewrite update_errors. exact Hin.
  - rewrite update_stored.
    destruct (validateAllInputs _); [now elim Hin | reflexivity].
Qed.

Lemma cleared_field_is_required_witness :
  let s := update Fyears nan (recalc initial_state64) in
  field_value (state_inputs s) Fyears = nan
  /\ In (Fyears, "Loan Term (Years) is required"%string) (State.errors s)
  /\ stored_result s = (None, None, None).
Proof.
  intros s.
  apply (cleared_field_is_required Fyears nan (recalc initial_state64)).
  reflexivity.
Defined.

(** X17. Over exact real arithmetic, the errors [validateAllInputs] returns
    are exactly the range errors: the errors object has an entry for a field
    if and only if the value of the field is below the minimum or above the
    maximum of its rule, and the entry is the rule's error message. *)
Theorem validation_reports_range_errors (input : LoanInput R) (field : Field)
    (msg : string) :
  In (field, msg) (validateAllInputs input)
  <-> ((field_value input field < IZR (min (validationRules field)))%R
       \/ (IZR (max (validationRules field)) < field_value input field)%R)
      /\ msg = errorMessage (validationRules field).
Proof. rewrite validateAllInputs_In. apply validateField_rejects. Qed.

(** ** The schedule table *)

Section TableFacts.

Context {num : Type} `{JSNumber num}.

(** The cells of the body row of a schedule row, and the footer. *)
Lemma renderScheduleTable_cells (schedule : list (Row.t num)) (totals : Totals.t num) :
  Table.body (renderScheduleTable schedule totals)
  = map (fun row =>
           [if (Row.year row =? 0)%Z then Dash else Text (IntValue (Row.year row));
            if is_zero (NumValue (Row.payment row)) then Dash
            else Currency (NumValue (Row.payment row));
            if is_zero (NumValue (Row.interest row)) then Dash
            else Currency (NumValue (Row.interest row));
            if is_zero (NumValue (Row.principal row)) then Dash
            else Currency (NumValue (Row.principal row));
            if is_zero (NumValue (Row.endingBalance row)) then Dash
            else Currency (NumValue (Row.endingBalance row))])
        schedule
  /\ Table.foot (renderScheduleTable schedule totals)
     = Some [Heading "Total";
             Currency (NumValue (Totals.payment totals));
             Currency (NumValue (Totals.interest totals));
             Currency (NumValue (Totals.principal totals));
             Currency (NumValue (of_int 0))].
Proof.
  split; [|reflexivity].
  unfold renderScheduleTable, renderTable. cbn [Table.body].
  rewrite map_map. reflexivity.
Qed.

End TableFacts.

(** X18. The schedule table in binary64.  The body has one row per year of
    the rounded term.  The row of year i + 1 starts with the year as text,
    never a dash; each of its four money cells shows a dash ("no value") when
    the value is 0 and the value formatted as currency otherwise; in the
    branch [r === 0] the interest cell is a dash in every row, and the
    ending-balance cell of the final row is a dash whenever the balance
    before the final year is finite.  The footer shows "Total", the three
    totals and an ending balance of 0 that is formatted as currency, not
    replaced by a dash. *)
Theorem schedule_table_cells (input : LoanInput float) (i : nat) :
  let r := (annualRate input / 100)%float in
  let n := Math_round (years input) in
  let res := computeMortgage input in
  let t := renderScheduleTable (Result.schedule res) (Result.totals res) in
  let before := balance_before (loanAmount input) (Result.schedule res) i in
  let money := fun value : float =>
                 if (value =? 0)%float then Dash else Currency (NumValue value) in
  (i < Z.to_nat n)%nat ->
  length (Table.body t) = Z.to_nat n /\
  (exists row,
     nth_error (Result.schedule res) i = Some row /\
     nth_error (Table.body t) i
     = Some [Text (IntValue (Z.of_nat i + 1));
             money (Row.payment row); money (Row.interest row);
             money (Row.principal row); money (Row.endingBalance row)] /\
     ((r =? 0)%float = true -> money (Row.interest row) = Dash) /\
     ((Z.of_nat i + 1 = n)%Z -> is_finite before = true ->
      money (Row.endingBalance row) = Dash)) /\
  Table.foot t
  = Some [Heading "Total";
          Currency (NumValue (Totals.payment (Result.totals res)));
          Currency (NumValue (Totals.interest (Result.totals res)));
          Currency (NumValue (Totals.principal (Result.totals res)));
          Currency (NumValue 0%float)].
Proof.
  intros r n res t before money Hi.
  destruct (renderScheduleTable_cells (Result.schedule res) (Result.totals res))
    as [Hbody Hfoot].
  fold t in Hbody, Hfoot.
  split; [rewrite Hbody, length_map; apply schedule_length|].
  split; [|exact Hfoot].
  destruct (@schedule_row_exists _ _ input i Hi) as (row & Hnth & Hrow).
  fold res n before in Hnth, Hrow.
  exists row. split; [exact Hnth|]. split; [|split].
  - rewrite Hbody, nth_error_map, Hnth. cbn [option_map].
    assert (Hyear : Row.year row = (Z.of_nat i + 1)%Z) by (rewrite Hrow; reflexivity).
    rewrite Hyear.
    destruct (Z.eqb_spec (Z.of_nat i + 1) 0); [lia | reflexivity].
  - intros Hr. rewrite Hrow. unfold row_at, engine_split.
    cbn [Row.interest strict_eq div of_int Binary64.number].
    change (Binary64.of_Z 100) with 100%float. change (Binary64.of_Z 0) with 0%float.
    fold r. rewrite Hr. reflexivity.
  - intros Hlast Hfin. rewrite Hrow. unfold row_at.
    cbn [Row.endingBalance Math_max of_int sub Binary64.number].
    destruct (Z.eqb_spec (Z.of_nat i + 1) n) as [_ | Hne]; [|lia].
    rewrite (sub_self_finite _ Hfin). reflexivity.
Qed.

(** 1000 at rate 0 over three years: the final row shows the year 3, the
    payment and the residue it repays, and dashes for interest and balance. *)
Lemma schedule_table_cells_witness :
  let res := computeMortgage third_residue_test64 in
  let t := renderScheduleTable (Result.schedule res) (Result.totals res) in
  nth_error (Table.body t) 2
  = Some [Text (IntValue 3);
          Currency (NumValue 333.33333333333331%float); Dash;
          Currency (NumValue 333.33333333333343%float); Dash].
Proof.
  intros res t.
  destruct (@schedule_table_cells third_residue_test64 2 ltac:(vm_compute; lia))
    as (_ & (row & Hnth & Hcells & _ & _) & _).
  fold res t in Hnth, Hcells.
  assert (Hrow : row = Row.make 3 333.33333333333331%float 0%float
                         333.33333333333343%float 0%float)
    by (vm_compute in Hnth; congruence).
  rewrite Hcells, Hrow. reflexivity.
Defined.

(** ** Subscriptions *)

Section ListenerFacts.

Context {L : Type}.
Variable L_eq_dec : forall a b : L, {a = b} + {a <> b}.

Lemma unsubscribe_absent (cb : L) (listeners : list L) :
  ~ In cb listeners -> unsubscribe L_eq_dec cb listeners = listeners.
Proof.
  induction listeners as [|x rest IH]; intros Hnot; [reflexivity|].
  cbn [unsubscribe]. destruct (L_eq_dec cb x) as [->|Hne].
  - elim Hnot. now left.
  - rewrite IH; [reflexivity|]. intros Hin. apply Hnot. now right.
Qed.

Lemma unsubscribe_app_present (cb : L) (listeners more : list L) :
  In cb listeners ->
  unsubscribe L_eq_dec cb (listeners ++ more) = unsubscribe L_eq_dec cb listeners ++ more.
Proof.
  induction listeners as [|x rest IH]; intros Hin; [now elim Hin|].
  cbn [unsubscribe app]. destruct (L_eq_dec cb x) as [->|Hne]; [reflexivity|].
  rewrite IH; [reflexivity|]. destruct Hin as [<- | Hin]; [congruence | exact Hin].
Qed.

Lemma unsubscribe_app_absent (cb : L) (listeners : list L) :
  ~ In cb listeners ->
  unsubscribe L_eq_dec cb (listeners ++ [cb]) = listeners.
Proof.
  induction listeners as [|x rest IH]; intros Hnot; cbn [unsubscribe app].
  - destruct (L_eq_dec cb cb); [reflexivity | congruence].
  - destruct (L_eq_dec cb x) as [->|Hne]; [elim Hnot; now left|].
    rewrite IH; [reflexivity|]. intros Hin. apply Hnot. now right.
Qed.

Lemma unsubscribe_count (cb x : L) (listeners : list L) :
  In cb listeners ->
  count_occ L_eq_dec listeners x
  = (count_occ L_eq_dec (unsubscribe L_eq_dec cb listeners) x
     + if L_eq_dec cb x then 1 else 0)%nat.
Proof.
  induction listeners as [|y rest IH]; intros Hin; [now elim Hin|].
  cbn [unsubscribe]. destruct (L_eq_dec cb y) as [->|Hne].
  - cbn [count_occ]. destruct (L_eq_dec y x); lia.
  - destruct Hin as [<- | Hin]; [congruence|].
    cbn [count_occ]. specialize (IH Hin).
    destruct (L_eq_dec y x), (L_eq_dec cb x); lia.
Qed.

End ListenerFacts.

(** X19. [subscribe(cb)] followed by the function it returns leaves every
    callback subscribed as often as before.  When [cb] was not subscribed
    before, the array is as it was, and calling the returned function again
    changes nothing.  When [cb] was subscribed before, it is its earliest
    subscription that is removed, not the one this call added: the callback
    moves to the end of the notification order. *)
Theorem unsubscribe_removes_earliest_subscription {L : Type}
    (L_eq_dec : forall a b : L, {a = b} + {a <> b}) (cb : L) (listeners : list L) :
  (~ In cb listeners ->
   unsubscribe L_eq_dec cb (subscribe cb listeners) = listeners
   /\ unsubscribe L_eq_dec cb (unsubscribe L_eq_dec cb (subscribe cb listeners))
      = listeners)
  /\ (In cb listeners ->
      unsubscribe L_eq_dec cb (subscribe cb listeners)
      = subscribe cb (unsubscribe L_eq_dec cb listeners))
  /\ (forall x, count_occ L_eq_dec (unsubscribe L_eq_dec cb (subscribe cb listeners)) x
                = count_occ L_eq_dec listeners x).
Proof.
  unfold subscribe.
  destruct (in_dec L_eq_dec cb listeners) as [Hin | Hnot].
  - split; [tauto|]. split; [intros _; now apply unsubscribe_app_present|].
    rewrite (@unsubscribe_app_present L L_eq_dec cb listeners [cb] Hin).
    intros x. rewrite count_occ_app, (@unsubscribe_count L L_eq_dec cb x listeners Hin).
    cbn [count_occ]. destruct (L_eq_dec cb x); lia.
  - rewrite (@unsubscribe_app_absent L L_eq_dec cb listeners Hnot).
    split; [intros _; split; [reflexivity | now apply unsubscribe_absent]|].
    split; [tauto | reflexivity].
Qed.
